(** * Training-step orchestration of the semi-supervised regression harness

    A shallow embedding of the three [train_step] methods of
    [semilearn/algorithms/meanteacher/meanteacher.py],
    [semilearn/algorithms/clss/clss.py] and
    [semilearn/algorithms/rankup/rankup.py], together with the parts of
    the algorithm base class they drive (model, EMA controller,
    batch-norm controller, hook registry).

    Numbers.  Python floats and the entries of tensors are idealised as
    exact rationals ([Q]); equality of computed scalars is [Qeq] ([==]).
    Python's true division raises [ZeroDivisionError] on a zero divisor:
    that outcome is kept.  Rounding, infinities and NaN are not part of
    the model.

    Effects.  A train step is a computation in a state-and-exception
    monad over the algorithm object ([AlgState]); the state reached when
    an exception propagates is kept, so that what a failed step leaves
    behind can be stated.  A chronological [trace] of controller, model
    and hook calls is recorded next to the state. *)

From Stdlib Require Import QArith Qminmax ZArith List String Bool Lia Lqa.
Import ListNotations.

Module Base.

(** ** Exceptions and results *)

Inductive Exn : Type :=
| ZeroDivisionError                 (* Python: float division by zero *)
| KeyError (key : string)           (* hook registry: hook not found *)
| AttributeError (op : string)      (* hook registry: operation not found *)
| TypeError                         (* keyword arguments do not fit the operation *)
| IndexError
| ShapeError                        (* shape / contract mismatch *)
| LogicError                        (* unbalanced controller call *)
| NonFinite                         (* a float result that is NaN: outside the rational model *)
| External (msg : string).          (* raised by a collaborator outside the core *)

Inductive Result (A : Type) : Type :=
| Ok (a : A)
| Raise (e : Exn).

Arguments Ok {A} a.
Arguments Raise {A} e.

(** ** Tensors, model, controllers *)

(** A tensor: its shape and its entries in row-major order. *)
Record Tensor : Type := mkTensor { shape : list nat; data : list Q }.

(** [t.detach()]: the same values; gradient bookkeeping is not modelled. *)
Definition detach (t : Tensor) : Tensor := t.

(** [t.unsqueeze(dim)]: a dimension of size one inserted at [dim]. *)
Definition unsqueeze (t : Tensor) (dim : nat) : Result Tensor :=
  if (dim <=? List.length (shape t))%nat
  then Ok (mkTensor (firstn dim (shape t) ++ 1%nat :: skipn dim (shape t)) (data t))
  else Raise IndexError.

(** Python dictionaries with string keys, in insertion order. *)
Definition Dict (V : Type) : Type := list (string * V).

Fixpoint dict_get {V : Type} (k : string) (d : Dict V) : option V :=
  match d with
  | [] => None
  | (k', v) :: d' => if String.eqb k k' then Some v else dict_get k d'
  end.

(** [d[k] = v]: overwrite in place, or append a new key. *)
Fixpoint dict_set {V : Type} (k : string) (v : V) (d : Dict V) : Dict V :=
  match d with
  | [] => [(k, v)]
  | (k', v') :: d' =>
      if String.eqb k k' then (k, v) :: d' else (k', v') :: dict_set k v d'
  end.

(** Named parameters of the network. *)
Definition Params : Type := Dict Tensor.

(** What a forward pass returns: [outs["logits"]], [outs["feat"]], and for
    the RankUp network the auxiliary head [outs["logits_arc"]] with its
    targets [outs["targets_arc"]] (present when targets were passed). *)
Record ModelOutput : Type := mkOut {
  logits : Tensor;
  feat : Tensor;
  logits_arc : option Tensor;
  targets_arc : option Tensor
}.

(** [self.model]: the live parameters and, per batch-norm layer, its
    update-statistics flag. *)
Record Model : Type := mkModel {
  params : Params;
  bn_flags : list bool
}.

(** Modelled from the spec: the EMA controller ([self.ema], outside the
    sources): a shadow copy of the parameters, and the original values
    remembered by [apply_shadow] until [restore]. *)
Record EMA : Type := mkEMA {
  shadow : Params;
  ema_backup : option Params
}.

(** Modelled from the spec: the batch-norm controller
    ([self.bn_controller], outside the sources): the flags captured by
    [freeze_bn] until [unfreeze_bn]. *)
Record BNController : Type := mkBN {
  bn_backup : option (list bool)
}.

(** Modelled from the spec: the RDA hook's state ([rda.py], outside the
    sources): one refined target per unlabeled sample, and the count of
    [gen_ulb_targets] calls that drives the periodic refinement. *)
Record RDAState : Type := mkRDA {
  rda_buffer : list Q;
  rda_lb_targets : list Q;
  rda_num_refine_iter : Z;
  rda_calls : Z
}.

(** Modelled from the spec: hooks as a closed set of tagged variants. *)
Inductive Hook : Type :=
| RDAHook (st : RDAState)
| PseudoLabelingHook
| FixedThresholdingHook
| OtherHook.                     (* a hook of the base class *)

(** What the train steps do to the algorithm object, in order. *)
Inductive Event : Type :=
| EvForward (x : Tensor) (p : Params) (flags : list bool)   (* self.model(x, ...) *)
| EvApplyShadow
| EvRestore
| EvFreezeBN
| EvUnfreezeBN
| EvCallHook (op name : string).

(** The algorithm object [self], as far as the train steps touch it. *)
Record AlgState : Type := mkAlg {
  model : Model;
  ema : EMA;
  bn_controller : BNController;
  hooks_dict : Dict Hook;
  self_idx_ulb : list Z;
  it : Z;
  trace : list Event
}.

Definition set_model (m : Model) (s : AlgState) : AlgState :=
  mkAlg m (ema s) (bn_controller s) (hooks_dict s) (self_idx_ulb s) (it s) (trace s).
Definition set_ema (e : EMA) (s : AlgState) : AlgState :=
  mkAlg (model s) e (bn_controller s) (hooks_dict s) (self_idx_ulb s) (it s) (trace s).
Definition set_bn_controller (c : BNController) (s : AlgState) : AlgState :=
  mkAlg (model s) (ema s) c (hooks_dict s) (self_idx_ulb s) (it s) (trace s).
Definition set_hooks_dict (h : Dict Hook) (s : AlgState) : AlgState :=
  mkAlg (model s) (ema s) (bn_controller s) h (self_idx_ulb s) (it s) (trace s).
Definition set_idx_ulb (i : list Z) (s : AlgState) : AlgState :=
  mkAlg (model s) (ema s) (bn_controller s) (hooks_dict s) i (it s) (trace s).
Definition set_it (i : Z) (s : AlgState) : AlgState :=
  mkAlg (model s) (ema s) (bn_controller s) (hooks_dict s) (self_idx_ulb s) i (trace s).
Definition set_trace (t : list Event) (s : AlgState) : AlgState :=
  mkAlg (model s) (ema s) (bn_controller s) (hooks_dict s) (self_idx_ulb s) (it s) t.

Arguments set_model m !s /.
Arguments set_ema e !s /.
Arguments set_bn_controller c !s /.
Arguments set_hooks_dict h !s /.
Arguments set_idx_ulb i !s /.
Arguments set_it i !s /.
Arguments set_trace t !s /.

(** ** The monad of a train step: state, and exceptions that keep the state *)

Definition M (A : Type) : Type := AlgState -> Result A * AlgState.

Definition ret {A : Type} (a : A) : M A := fun s => (Ok a, s).

Definition bind {A B : Type} (m : M A) (k : A -> M B) : M B :=
  fun s =>
    match m s with
    | (Ok a, s') => k a s'
    | (Raise e, s') => (Raise e, s')
    end.

Definition raise {A : Type} (e : Exn) : M A := fun s => (Raise e, s).

Definition lift {A : Type} (r : Result A) : M A := fun s => (r, s).

Definition gets {A : Type} (f : AlgState -> A) : M A := fun s => (Ok (f s), s).

Definition modify (f : AlgState -> AlgState) : M unit := fun s => (Ok tt, f s).

Definition emit (ev : Event) : M unit :=
  modify (fun s => set_trace (trace s ++ [ev]) s).

Declare Scope train_scope.
Delimit Scope train_scope with train.
Notation "x <- m ;; k" := (bind m (fun x => k))
  (at level 61, m at next level, right associativity) : train_scope.
Notation "m ;; k" := (bind m (fun _ => k))
  (at level 61, right associativity) : train_scope.
Local Open Scope train_scope.

(** ** Controllers *)

(** Modelled from the spec: [apply_shadow()] swaps the shadow copy into the
    live model and remembers the original values. *)
Definition apply_shadow : M unit :=
  emit EvApplyShadow ;;
  modify (fun s =>
    set_model (mkModel (shadow (ema s)) (bn_flags (model s)))
      (set_ema (mkEMA (shadow (ema s)) (Some (params (model s)))) s)).

(** Modelled from the spec: [restore()] swaps the remembered values back;
    without a matching [apply_shadow] there is nothing to restore. *)
Definition restore : M unit :=
  emit EvRestore ;;
  b <- gets (fun s => ema_backup (ema s)) ;;
  match b with
  | Some p =>
      modify (fun s =>
        set_model (mkModel p (bn_flags (model s)))
          (set_ema (mkEMA (shadow (ema s)) None) s))
  | None => raise LogicError
  end.

Definition frozen (flags : list bool) : list bool := map (fun _ => false) flags.

(** Modelled from the spec: [freeze_bn(model)] captures every layer's
    update-statistics flag and sets it to "do not update". *)
Definition freeze_bn : M unit :=
  emit EvFreezeBN ;;
  modify (fun s =>
    set_model (mkModel (params (model s)) (frozen (bn_flags (model s))))
      (set_bn_controller (mkBN (Some (bn_flags (model s)))) s)).

(** Modelled from the spec: [unfreeze_bn(model)] gives every layer the
    flag captured by the matching [freeze_bn]; unbalanced use is a logic
    error. *)
Definition unfreeze_bn : M unit :=
  emit EvUnfreezeBN ;;
  b <- gets (fun s => bn_backup (bn_controller s)) ;;
  match b with
  | Some flags =>
      modify (fun s =>
        set_model (mkModel (params (model s)) flags)
          (set_bn_controller (mkBN None) s))
  | None => raise LogicError
  end.

(** ** Hook registry *)

(** Modelled from the spec: [register_hook(hook, name)]; a duplicate name
    overwrites. *)
Definition register_hook (h : Hook) (name : string) (d : Dict Hook) : Dict Hook :=
  dict_set name h d.

(** [outs[key]] on an entry of the output mapping that may be absent. *)
Definition getitem {A : Type} (key : string) (o : option A) : M A :=
  match o with
  | Some a => ret a
  | None => raise (KeyError key)
  end.

(** ** Output packaging *)

Record OutDict : Type := mkOutDict {
  loss : Q;
  out_feat : Dict Tensor
}.

(** Modelled from the spec: [process_out_dict(loss=..., feat=...)] builds
    the mapping with [loss] and [feat]. *)
Definition process_out_dict (l : Q) (f : Dict Tensor) : OutDict := mkOutDict l f.

(** Modelled from the spec: [process_log_dict] builds the string-keyed
    diagnostics from its keyword arguments (the base class's
    decoration of the keys is not modelled). *)
Definition process_log_dict (kwargs : Dict Q) : Dict Q := kwargs.

(** ** Numbers *)

(** [a / b] on Python floats. *)
Definition py_truediv (a b : Q) : Result Q :=
  if Qeq_bool b 0 then Raise ZeroDivisionError else Ok (a / b).

(** [np.clip(x, a_min, a_max)], that is [minimum(a_max, maximum(x, a_min))]. *)
Definition np_clip (x a_min a_max : Q) : Q := Qmin (Qmax x a_min) a_max.

(** The ramp both [MeanTeacher.train_step] (line 69) and
    [RankUp.train_step] (line 155) evaluate:
    [np.clip(self.it / (self.reg_unsup_warm_up * self.num_train_iter),
             a_min=0.0, a_max=1.0)]. *)
Definition warmup_ramp (it : Z) (reg_unsup_warm_up : Q) (num_train_iter : Z) : Result Q :=
  match py_truediv (inject_Z it) (reg_unsup_warm_up * inject_Z num_train_iter) with
  | Ok r => Ok (np_clip r 0 1)
  | Raise e => Raise e
  end.

(** The ramp as the specification words it,
    [clip(it / (warm_up_fraction * num_train_iter), 0, 1)], with the
    total division of [Q] and the clip written as a case split. *)
Definition spec_warm_up (it : Z) (warm_up_fraction : Q) (num_train_iter : Z) : Q :=
  let x := (inject_Z it / (warm_up_fraction * inject_Z num_train_iter))%Q in
  if Qle_bool x 0 then 0%Q else if Qle_bool 1 x then 1%Q else x.

(** ** Forward passes *)

Section Forward.

(** The network, a collaborator outside the core: what a forward pass
    returns, or raises, under given parameters and batch-norm flags;
    [net_feat] is the feature-only pass ([only_feat=True]). *)
Variable net : Params -> list bool -> Tensor -> Result ModelOutput.
Variable net_feat : Params -> list bool -> Tensor -> Result Tensor.

(** [self.model(x)]: a pass through the live model, with whatever
    parameters and flags it holds at the call. *)
Definition forward (x : Tensor) : M ModelOutput :=
  m <- gets model ;;
  emit (EvForward x (params m) (bn_flags m)) ;;
  lift (net (params m) (bn_flags m) x).

(** [self.model(x, only_feat=True)] *)
Definition forward_feat (x : Tensor) : M Tensor :=
  m <- gets model ;;
  emit (EvForward x (params m) (bn_flags m)) ;;
  lift (net_feat (params m) (bn_flags m) x).

(** [for k in kwargs: feat_dict[k] = self.model(kwargs[k], only_feat=True)] *)
Fixpoint extra_feats (kwargs : Dict Tensor) (feat_dict : Dict Tensor) : M (Dict Tensor) :=
  match kwargs with
  | [] => ret feat_dict
  | (k, x) :: rest =>
      f <- forward_feat x ;;
      extra_feats rest (dict_set k f feat_dict)
  end.

(** The feature passes as a function of the parameters and flags they
    run under: the dictionary (or the exception) and the passes made. *)
Fixpoint extra_feats_run (p : Params) (flags : list bool)
    (kwargs : Dict Tensor) (feat_dict : Dict Tensor) : Result (Dict Tensor) * list Event :=
  match kwargs with
  | [] => (Ok feat_dict, [])
  | (k, x) :: rest =>
      match net_feat p flags x with
      | Ok f =>
          let (r, evs) := extra_feats_run p flags rest (dict_set k f feat_dict) in
          (r, EvForward x p flags :: evs)
      | Raise e => (Raise e, [EvForward x p flags])
      end
  end.

End Forward.

(** [s'] differs from [s] in its trace at most. *)
Definition same_object (s s' : AlgState) : Prop :=
  set_trace (trace s) s' = s.

(** *** Facts about the ramp *)

Lemma py_truediv_nonzero (a b : Q) :
  ~ b == 0 -> py_truediv a b = Ok (a / b)%Q.
Proof.
  intros Hb. unfold py_truediv.
  destruct (Qeq_bool b 0) eqn:E; [|reflexivity].
  apply Qeq_bool_eq in E. contradiction.
Qed.

Lemma py_truediv_zero (a b : Q) :
  b == 0 -> py_truediv a b = Raise ZeroDivisionError.
Proof.
  intros Hb. unfold py_truediv. now rewrite (Qeq_eq_bool _ _ Hb).
Qed.

Lemma np_clip_bounds (x : Q) : 0 <= np_clip x 0 1 <= 1.
Proof.
  unfold np_clip. split.
  - apply Q.min_glb; [apply Q.le_max_r | discriminate].
  - apply Q.le_min_r.
Qed.

Lemma np_clip_mono (x y lo hi : Q) : x <= y -> np_clip x lo hi <= np_clip y lo hi.
Proof.
  intros H. unfold np_clip.
  apply Q.min_le_compat_r, Q.max_le_compat_r, H.
Qed.

Lemma np_clip_above (x : Q) : 1 <= x -> np_clip x 0 1 == 1.
Proof.
  intros H. unfold np_clip. apply Q.min_r.
  apply Qle_trans with x; [exact H | apply Q.le_max_l].
Qed.

Lemma np_clip_below (x : Q) : x <= 0 -> np_clip x 0 1 == 0.
Proof.
  intros H. unfold np_clip.
  rewrite (Q.max_r _ _ H). apply Q.min_l. discriminate.
Qed.

Lemma np_clip_inside (x : Q) : 0 <= x <= 1 -> np_clip x 0 1 == x.
Proof.
  intros [H0 H1]. unfold np_clip.
  rewrite (Q.max_l _ _ H0). apply Q.min_l, H1.
Qed.

Lemma np_clip_cases (x : Q) :
  np_clip x 0 1 == (if Qle_bool x 0 then 0 else if Qle_bool 1 x then 1 else x).
Proof.
  destruct (Qle_bool x 0) eqn:E0.
  - apply np_clip_below, Qle_bool_iff, E0.
  - destruct (Qle_bool 1 x) eqn:E1.
    + apply np_clip_above, Qle_bool_iff, E1.
    + apply np_clip_inside. split.
      * apply Qlt_le_weak, Qnot_le_lt. intros H.
        apply Qle_bool_iff in H. congruence.
      * apply Qlt_le_weak, Qnot_le_lt. intros H.
        apply Qle_bool_iff in H. congruence.
Qed.

Lemma warm_up_span_pos (w : Q) (N : Z) :
  0 < w -> (0 < N)%Z -> 0 < w * inject_Z N.
Proof.
  intros Hw HN. apply Qmult_lt_0_compat; [exact Hw|].
  replace 0 with (inject_Z 0) by reflexivity.
  rewrite <- Zlt_Qlt. exact HN.
Qed.

Lemma Qdiv_le_mono (a b d : Q) : 0 < d -> a <= b -> a / d <= b / d.
Proof.
  intros Hd Hab. unfold Qdiv.
  apply Qmult_le_compat_r; [exact Hab|].
  apply Qlt_le_weak, Qinv_lt_0_compat, Hd.
Qed.

(** *** Facts about computations *)

Lemma bind_Ok {A B : Type} (m : M A) (k : A -> M B) (s s1 : AlgState) (a : A) :
  m s = (Ok a, s1) -> bind m k s = k a s1.
Proof. intros H. unfold bind. now rewrite H. Qed.

Lemma bind_Raise {A B : Type} (m : M A) (k : A -> M B) (s s1 : AlgState) (e : Exn) :
  m s = (Raise e, s1) -> bind m k s = (Raise e, s1).
Proof. intros H. unfold bind. now rewrite H. Qed.

Lemma bind_Ok_inv {A B : Type} (m : M A) (k : A -> M B) (s s2 : AlgState) (b : B) :
  bind m k s = (Ok b, s2) ->
  exists a s1, m s = (Ok a, s1) /\ k a s1 = (Ok b, s2).
Proof.
  unfold bind. destruct (m s) as [[a|e] s1]; intros H.
  - now exists a, s1.
  - discriminate.
Qed.

Lemma bind_assoc {A B C : Type} (m : M A) (f : A -> M B) (g : B -> M C) (s : AlgState) :
  bind (bind m f) g s = bind m (fun a => bind (f a) g) s.
Proof. unfold bind. now destruct (m s) as [[a|e] s1]. Qed.

Lemma set_trace_trace (s : AlgState) : set_trace (trace s) s = s.
Proof. now destruct s. Qed.

Lemma same_object_fields (s s' : AlgState) :
  same_object s s' ->
  model s' = model s /\ ema s' = ema s /\ bn_controller s' = bn_controller s /\
  hooks_dict s' = hooks_dict s /\ self_idx_ulb s' = self_idx_ulb s /\ it s' = it s.
Proof. intros <-. now destruct s'. Qed.

Lemma extra_feats_exec (net_feat : Params -> list bool -> Tensor -> Result Tensor)
    (kwargs : Dict Tensor) :
  forall (fd : Dict Tensor) (s : AlgState),
    extra_feats net_feat kwargs fd s =
    (fst (extra_feats_run net_feat (params (model s)) (bn_flags (model s)) kwargs fd),
     set_trace
       (trace s ++
        snd (extra_feats_run net_feat (params (model s)) (bn_flags (model s)) kwargs fd)) s).
Proof.
  induction kwargs as [|[k x] rest IH]; intros fd s; simpl.
  - unfold ret. now rewrite app_nil_r, set_trace_trace.
  - unfold bind, forward_feat, bind, gets, emit, modify, lift. simpl.
    destruct (net_feat (params (model s)) (bn_flags (model s)) x) as [f|e]; simpl.
    + rewrite IH. simpl.
      destruct (extra_feats_run net_feat (params (model s)) (bn_flags (model s)) rest
                  (dict_set k f fd)) as [r evs]. simpl.
      now rewrite <- app_assoc.
    + reflexivity.
Qed.

Lemma dict_get_set_same {V : Type} (k : string) (v : V) (d : Dict V) :
  dict_get k (dict_set k v d) = Some v.
Proof.
  induction d as [|[k' v'] d IH]; simpl.
  - now rewrite String.eqb_refl.
  - destruct (String.eqb k k') eqn:E; simpl.
    + now rewrite String.eqb_refl.
    + now rewrite E.
Qed.

Lemma dict_get_set_other {V : Type} (k k' : string) (v : V) (d : Dict V) :
  k <> k' -> dict_get k (dict_set k' v d) = dict_get k d.
Proof.
  intros Hne. induction d as [|[k0 v0] d IH]; simpl.
  - destruct (String.eqb k k') eqn:E; [|reflexivity].
    apply String.eqb_eq in E. contradiction.
  - destruct (String.eqb k' k0) eqn:E0; simpl.
    + apply String.eqb_eq in E0. subst k0.
      destruct (String.eqb k k') eqn:E; [|reflexivity].
      apply String.eqb_eq in E. contradiction.
    + now rewrite IH.
Qed.

(** Symbolic execution of the monad's primitives on an explicit state. *)
Ltac run_base :=
  cbn [bind forward forward_feat apply_shadow freeze_bn unfreeze_bn restore
       emit modify gets lift raise ret getitem
       model ema bn_controller hooks_dict self_idx_ulb it trace
       set_model set_ema set_bn_controller set_hooks_dict set_idx_ulb set_it set_trace
       params bn_flags shadow ema_backup bn_backup fst snd] in *.

End Base.

(** * MeanTeacher ([semilearn/algorithms/meanteacher/meanteacher.py]) *)

Module MeanTeacher.
Import Base.
Local Open Scope train_scope.

(** The configuration read by the step: [self.reg_unsup_warm_up], and the
    base class's [self.reg_ulb_loss_ratio] and [self.num_train_iter]. *)
Record Config : Type := mkConfig {
  reg_unsup_warm_up : Q;
  reg_ulb_loss_ratio : Q;
  num_train_iter : Z
}.

(** [train_step(self, x_lb, y_lb, x_ulb_w, x_ulb_w_2, **kwargs)] *)
Record Batch : Type := mkBatch {
  x_lb : Tensor;
  y_lb : Tensor;
  x_ulb_w : Tensor;
  x_ulb_w_2 : Tensor;
  kwargs : Dict Tensor
}.

(** The local variables the [with self.amp_cm():] block leaves behind. *)
Record Locals : Type := mkLocals {
  logits_x_lb : Tensor;
  logits_x_ulb_w : Tensor;
  logits_x_ulb_w_2 : Tensor;
  feat_dict : Dict Tensor;
  sup_loss : Q;
  unsup_loss : Q;
  unsup_warmup : Q;
  total_loss : Q
}.

Section MeanTeacher.

Variable net : Params -> list bool -> Tensor -> Result ModelOutput.
Variable net_feat : Params -> list bool -> Tensor -> Result Tensor.
(** [self.reg_loss(logits, targets, reduction=...)] and
    [self.reg_consistency_loss(logits, targets, name)]: loss kernels of
    the base class. *)
Variable reg_loss : Tensor -> Tensor -> string -> Result Q.
Variable reg_consistency_loss : Tensor -> Tensor -> string -> Result Q.

(** Lines 41-70. *)
Definition amp_block (cfg : Config) (b : Batch) : M Locals :=
  outs_x_lb <- forward net (x_lb b) ;;
  let logits_x_lb := logits outs_x_lb in
  let feats_x_lb := feat outs_x_lb in
  apply_shadow ;;
  freeze_bn ;;
  outs_x_ulb_w <- forward net (x_ulb_w b) ;;
  let logits_x_ulb_w := logits outs_x_ulb_w in
  let feats_x_ulb_w := feat outs_x_ulb_w in
  unfreeze_bn ;;
  restore ;;
  freeze_bn ;;
  outs_x_ulb_w_2 <- forward net (x_ulb_w_2 b) ;;
  let logits_x_ulb_w_2 := logits outs_x_ulb_w_2 in
  let feats_x_ulb_w_2 := feat outs_x_ulb_w_2 in
  unfreeze_bn ;;
  feat_dict <- extra_feats net_feat (kwargs b)
                 [("x_lb"%string, feats_x_lb);
                  ("x_ulb_w"%string, feats_x_ulb_w);
                  ("x_ulb_w_2"%string, feats_x_ulb_w_2)] ;;
  sup_loss <- lift (reg_loss logits_x_lb (y_lb b) "mean") ;;
  unsup_loss <- lift (reg_consistency_loss logits_x_ulb_w_2 (detach logits_x_ulb_w) "mse") ;;
  self_it <- gets it ;;
  unsup_warmup <- lift (warmup_ramp self_it (reg_unsup_warm_up cfg) (num_train_iter cfg)) ;;
  let total_loss := (sup_loss + reg_ulb_loss_ratio cfg * unsup_loss * unsup_warmup)%Q in
  ret (mkLocals logits_x_lb logits_x_ulb_w logits_x_ulb_w_2 feat_dict
         sup_loss unsup_loss unsup_warmup total_loss).

(** Lines 39-77. *)
Definition train_step (cfg : Config) (b : Batch) : M (OutDict * Dict Q) :=
  l <- amp_block cfg b ;;
  let out_dict := process_out_dict (total_loss l) (feat_dict l) in
  let log_dict := process_log_dict [("total_loss"%string, total_loss l)] in
  let log_dict := dict_set "train_reg/sup_loss" (sup_loss l) log_dict in
  let log_dict := dict_set "train_reg/unsup_loss" (unsup_loss l) log_dict in
  let log_dict := dict_set "train_reg/total_loss" (total_loss l) log_dict in
  ret (out_dict, log_dict).

(** The features dictionary before the extra passes. *)
Definition feat_dict0 (o_lb o_w o_w2 : ModelOutput) : Dict Tensor :=
  [("x_lb"%string, feat o_lb); ("x_ulb_w"%string, feat o_w); ("x_ulb_w_2"%string, feat o_w2)].

(** The calls of a step in which the three passes returned, up to and
    including the second bracket. *)
Definition passes_trace (b : Batch) (s : AlgState) : list Event :=
  [EvForward (x_lb b) (params (model s)) (bn_flags (model s));
   EvApplyShadow; EvFreezeBN;
   EvForward (x_ulb_w b) (shadow (ema s)) (frozen (bn_flags (model s)));
   EvUnfreezeBN; EvRestore;
   EvFreezeBN;
   EvForward (x_ulb_w_2 b) (params (model s)) (frozen (bn_flags (model s)));
   EvUnfreezeBN].

(** The algorithm object when the block ends normally: controllers
    released, live model as before, trace extended. *)
Definition released (s : AlgState) (evs : list Event) : AlgState :=
  mkAlg (model s) (mkEMA (shadow (ema s)) None) (mkBN None)
    (hooks_dict s) (self_idx_ulb s) (it s) (trace s ++ evs).

Ltac run_step := try unfold amp_block in *; run_base.

Ltac open_state s :=
  destruct s as [[? ?] [? ?] [?] ? ? ? ?]; run_step.

Lemma mt_amp_block_returns (cfg : Config) (b : Batch) (s : AlgState)
    (o_lb o_w o_w2 : ModelOutput) (fd : Dict Tensor) (sup unsup wu : Q) :
  net (params (model s)) (bn_flags (model s)) (x_lb b) = Ok o_lb ->
  net (shadow (ema s)) (frozen (bn_flags (model s))) (x_ulb_w b) = Ok o_w ->
  net (params (model s)) (frozen (bn_flags (model s))) (x_ulb_w_2 b) = Ok o_w2 ->
  fst (extra_feats_run net_feat (params (model s)) (bn_flags (model s)) (kwargs b)
         (feat_dict0 o_lb o_w o_w2)) = Ok fd ->
  reg_loss (logits o_lb) (y_lb b) "mean" = Ok sup ->
  reg_consistency_loss (logits o_w2) (logits o_w) "mse" = Ok unsup ->
  warmup_ramp (it s) (reg_unsup_warm_up cfg) (num_train_iter cfg) = Ok wu ->
  amp_block cfg b s =
  (Ok (mkLocals (logits o_lb) (logits o_w) (logits o_w2) fd sup unsup wu
         (sup + reg_ulb_loss_ratio cfg * unsup * wu)%Q),
   released s
     (passes_trace b s ++
      snd (extra_feats_run net_feat (params (model s)) (bn_flags (model s)) (kwargs b)
             (feat_dict0 o_lb o_w o_w2)))).
Proof.
  intros H1 H2 H3 H4 H5 H6 H7. unfold released, passes_trace, feat_dict0 in *.
  open_state s.
  rewrite H1. run_step. rewrite H2. run_step. rewrite H3. run_step.
  erewrite bind_Ok by (rewrite extra_feats_exec; run_step; rewrite H4; reflexivity).
  run_step. unfold detach. rewrite H5. run_step. rewrite H6. run_step. rewrite H7.
  repeat rewrite <- app_assoc. reflexivity.
Qed.

Ltac next_call H :=
  match type of H with
  | context [match ?c with Ok _ => _ | Raise _ => _ end] =>
      let E := fresh "E" in destruct c eqn:E; run_step
  end.

Ltac feats_call H :=
  unfold bind at 1 in H; rewrite extra_feats_exec in H; run_step.


(** The algorithm object when an exception leaves the first bracket:
    shadow applied, batch-norm frozen. *)
Definition teacher_leak (b : Batch) (s : AlgState) : AlgState :=
  mkAlg (mkModel (shadow (ema s)) (frozen (bn_flags (model s))))
    (mkEMA (shadow (ema s)) (Some (params (model s))))
    (mkBN (Some (bn_flags (model s))))
    (hooks_dict s) (self_idx_ulb s) (it s)
    (trace s ++ firstn 4 (passes_trace b s)).

(** The algorithm object when an exception leaves the second bracket:
    batch-norm frozen. *)
Definition student_leak (b : Batch) (s : AlgState) : AlgState :=
  mkAlg (mkModel (params (model s)) (frozen (bn_flags (model s))))
    (mkEMA (shadow (ema s)) None)
    (mkBN (Some (bn_flags (model s))))
    (hooks_dict s) (self_idx_ulb s) (it s)
    (trace s ++ firstn 8 (passes_trace b s)).

Lemma mt_amp_block_Ok_inv (cfg : Config) (b : Batch) (s s' : AlgState) (l : Locals) :
  amp_block cfg b s = (Ok l, s') ->
  exists o_lb o_w o_w2,
    net (params (model s)) (bn_flags (model s)) (x_lb b) = Ok o_lb /\
    net (shadow (ema s)) (frozen (bn_flags (model s))) (x_ulb_w b) = Ok o_w /\
    net (params (model s)) (frozen (bn_flags (model s))) (x_ulb_w_2 b) = Ok o_w2 /\
    fst (extra_feats_run net_feat (params (model s)) (bn_flags (model s)) (kwargs b)
           (feat_dict0 o_lb o_w o_w2)) = Ok (feat_dict l) /\
    reg_loss (logits o_lb) (y_lb b) "mean" = Ok (sup_loss l) /\
    reg_consistency_loss (logits o_w2) (logits o_w) "mse" = Ok (unsup_loss l) /\
    warmup_ramp (it s) (reg_unsup_warm_up cfg) (num_train_iter cfg) = Ok (unsup_warmup l) /\
    l = mkLocals (logits o_lb) (logits o_w) (logits o_w2) (feat_dict l)
          (sup_loss l) (unsup_loss l) (unsup_warmup l)
          (sup_loss l + reg_ulb_loss_ratio cfg * unsup_loss l * unsup_warmup l)%Q /\
    s' = released s
           (passes_trace b s ++
            snd (extra_feats_run net_feat (params (model s)) (bn_flags (model s))
                   (kwargs b) (feat_dict0 o_lb o_w o_w2))).
Proof.
  intros H. unfold released, passes_trace, feat_dict0.
  open_state s.
  next_call H; [|discriminate].
  next_call H; [|discriminate].
  next_call H; [|discriminate].
  feats_call H.
  next_call H; [|discriminate].
  unfold detach in H.
  next_call H; [|discriminate].
  next_call H; [|discriminate].
  next_call H; [|discriminate].
  injection H as <- <-. cbn.
  eexists _, _, _. repeat split; try eassumption.
  repeat rewrite <- app_assoc. reflexivity.
Qed.

Lemma mt_amp_block_Raise_inv (cfg : Config) (b : Batch) (s s' : AlgState) (e : Exn) :
  amp_block cfg b s = (Raise e, s') ->
  same_object s s' \/
  (net (shadow (ema s)) (frozen (bn_flags (model s))) (x_ulb_w b) = Raise e /\
   s' = teacher_leak b s) \/
  (net (params (model s)) (frozen (bn_flags (model s))) (x_ulb_w_2 b) = Raise e /\
   s' = student_leak b s) \/
  (exists evs, s' = released s evs).
Proof.
  intros H. unfold same_object, teacher_leak, student_leak, released, passes_trace.
  open_state s.
  next_call H.
  2:{ injection H as <- <-. now left. }
  next_call H.
  2:{ injection H as <- <-. right; left. split; [reflexivity|].
      cbn. repeat rewrite <- app_assoc. reflexivity. }
  next_call H.
  2:{ injection H as <- <-. right; right; left. split; [reflexivity|].
      cbn. repeat rewrite <- app_assoc. reflexivity. }
  right; right; right.
  feats_call H.
  next_call H.
  2:{ injection H as <- <-. eexists. repeat rewrite <- app_assoc. reflexivity. }
  next_call H.
  2:{ injection H as <- <-. eexists. repeat rewrite <- app_assoc. reflexivity. }
  next_call H.
  2:{ injection H as <- <-. eexists. repeat rewrite <- app_assoc. reflexivity. }
  next_call H; [discriminate|].
  injection H as <- <-. eexists. repeat rewrite <- app_assoc. reflexivity.
Qed.

Lemma mt_teacher_pass_raises (cfg : Config) (b : Batch) (s : AlgState)
    (o_lb : ModelOutput) (e : Exn) :
  net (params (model s)) (bn_flags (model s)) (x_lb b) = Ok o_lb ->
  net (shadow (ema s)) (frozen (bn_flags (model s))) (x_ulb_w b) = Raise e ->
  amp_block cfg b s = (Raise e, teacher_leak b s).
Proof.
  intros H1 H2. unfold teacher_leak, passes_trace.
  open_state s. rewrite H1. run_step. rewrite H2.
  cbn. repeat rewrite <- app_assoc. reflexivity.
Qed.

Lemma mt_student_pass_raises (cfg : Config) (b : Batch) (s : AlgState)
    (o_lb o_w : ModelOutput) (e : Exn) :
  net (params (model s)) (bn_flags (model s)) (x_lb b) = Ok o_lb ->
  net (shadow (ema s)) (frozen (bn_flags (model s))) (x_ulb_w b) = Ok o_w ->
  net (params (model s)) (frozen (bn_flags (model s))) (x_ulb_w_2 b) = Raise e ->
  amp_block cfg b s = (Raise e, student_leak b s).
Proof.
  intros H1 H2 H3. unfold student_leak, passes_trace.
  open_state s. rewrite H1. run_step. rewrite H2. run_step. rewrite H3.
  cbn. repeat rewrite <- app_assoc. reflexivity.
Qed.

Lemma mt_ramp_raises (cfg : Config) (b : Batch) (s : AlgState)
    (o_lb o_w o_w2 : ModelOutput) (fd : Dict Tensor) (sup unsup : Q) (e : Exn) :
  net (params (model s)) (bn_flags (model s)) (x_lb b) = Ok o_lb ->
  net (shadow (ema s)) (frozen (bn_flags (model s))) (x_ulb_w b) = Ok o_w ->
  net (params (model s)) (frozen (bn_flags (model s))) (x_ulb_w_2 b) = Ok o_w2 ->
  fst (extra_feats_run net_feat (params (model s)) (bn_flags (model s)) (kwargs b)
         (feat_dict0 o_lb o_w o_w2)) = Ok fd ->
  reg_loss (logits o_lb) (y_lb b) "mean" = Ok sup ->
  reg_consistency_loss (logits o_w2) (logits o_w) "mse" = Ok unsup ->
  warmup_ramp (it s) (reg_unsup_warm_up cfg) (num_train_iter cfg) = Raise e ->
  exists evs, amp_block cfg b s = (Raise e, released s evs).
Proof.
  intros H1 H2 H3 H4 H5 H6 H7. unfold released, passes_trace, feat_dict0 in *.
  open_state s.
  rewrite H1. run_step. rewrite H2. run_step. rewrite H3. run_step.
  erewrite bind_Ok by (rewrite extra_feats_exec; run_step; rewrite H4; reflexivity).
  run_step. unfold detach. rewrite H5. run_step. rewrite H6. run_step. rewrite H7.
  eexists. repeat rewrite <- app_assoc. reflexivity.
Qed.

Lemma mt_train_step_Ok_inv (cfg : Config) (b : Batch) (s s' : AlgState)
    (out : OutDict) (log : Dict Q) :
  train_step cfg b s = (Ok (out, log), s') ->
  exists l,
    amp_block cfg b s = (Ok l, s') /\
    out = mkOutDict (total_loss l) (feat_dict l) /\
    dict_get "train_reg/sup_loss" log = Some (sup_loss l) /\
    dict_get "train_reg/unsup_loss" log = Some (unsup_loss l) /\
    dict_get "train_reg/total_loss" log = Some (total_loss l).
Proof.
  unfold train_step. intros H.
  apply bind_Ok_inv in H as (l & s1 & H1 & H).
  unfold ret, process_out_dict, process_log_dict in H. injection H as <- <- <-.
  exists l. repeat split; [exact H1 | reflexivity ..].
Qed.

Lemma mt_train_step_Raise_inv (cfg : Config) (b : Batch) (s s' : AlgState) (e : Exn) :
  train_step cfg b s = (Raise e, s') -> amp_block cfg b s = (Raise e, s').
Proof.
  unfold train_step, bind, ret.
  destruct (amp_block cfg b s) as [[l|e0] s1]; intros H.
  - discriminate.
  - now injection H as -> ->.
Qed.

(** C5.  On normal completion of [MeanTeacher.train_step] the teacher pass
    ran on [x_ulb_w] inside the nested bracket
    [apply_shadow; freeze_bn; forward(x_ulb_w); unfreeze_bn; restore] -- the
    pass saw the shadow parameters and frozen batch-norm flags -- and the
    live model's parameters and every batch-norm flag are what they were
    before the teacher pass; both controllers are released. *)
Theorem teacher_pass_bracketed (cfg : Config) (b : Batch) (s s' : AlgState)
    (r : OutDict * Dict Q) :
  train_step cfg b s = (Ok r, s') ->
  exists o_w evs,
    net (shadow (ema s)) (frozen (bn_flags (model s))) (x_ulb_w b) = Ok o_w /\
    trace s' =
      trace s ++
      [EvForward (x_lb b) (params (model s)) (bn_flags (model s))] ++
      [EvApplyShadow; EvFreezeBN;
       EvForward (x_ulb_w b) (shadow (ema s)) (frozen (bn_flags (model s)));
       EvUnfreezeBN; EvRestore] ++ evs /\
    params (model s') = params (model s) /\
    bn_flags (model s') = bn_flags (model s) /\
    shadow (ema s') = shadow (ema s) /\
    ema_backup (ema s') = None /\
    bn_backup (bn_controller s') = None.
Proof.
  destruct r as [out log]. intros H.
  apply mt_train_step_Ok_inv in H as (l & H & _).
  apply mt_amp_block_Ok_inv in H
    as (o_lb & o_w & o_w2 & _ & H2 & _ & _ & _ & _ & _ & _ & ->).
  exists o_w. eexists. split; [exact H2|].
  unfold released, passes_trace. cbn [trace model ema bn_controller shadow
    ema_backup bn_backup params bn_flags].
  split; [|now destruct s as [[? ?] ? ? ? ? ? ?]].
  cbn [app]. reflexivity.
Qed.

(** C6.  When the three passes, the feature passes and the two loss
    kernels return and the warm-up span is not zero,
    [MeanTeacher.train_step] returns
    [total_loss = sup_loss + reg_ulb_loss_ratio * unsup_loss * warm_up(it)],
    with [sup_loss] the mean regression loss of the labeled logits against
    [y_lb] and [unsup_loss] the MSE consistency loss between the student's
    logits on [x_ulb_w_2] and the (detached) logits of the EMA teacher on
    [x_ulb_w]. *)
Theorem meanteacher_total_loss (cfg : Config) (b : Batch) (s : AlgState)
    (o_lb o_w o_w2 : ModelOutput) (fd : Dict Tensor) (sup unsup : Q) :
  net (params (model s)) (bn_flags (model s)) (x_lb b) = Ok o_lb ->
  net (shadow (ema s)) (frozen (bn_flags (model s))) (x_ulb_w b) = Ok o_w ->
  net (params (model s)) (frozen (bn_flags (model s))) (x_ulb_w_2 b) = Ok o_w2 ->
  fst (extra_feats_run net_feat (params (model s)) (bn_flags (model s)) (kwargs b)
         (feat_dict0 o_lb o_w o_w2)) = Ok fd ->
  reg_loss (logits o_lb) (y_lb b) "mean" = Ok sup ->
  reg_consistency_loss (logits o_w2) (detach (logits o_w)) "mse" = Ok unsup ->
  ~ reg_unsup_warm_up cfg * inject_Z (num_train_iter cfg) == 0 ->
  exists out log s',
    train_step cfg b s = (Ok (out, log), s') /\
    loss out =
      (sup + reg_ulb_loss_ratio cfg * unsup *
             np_clip (inject_Z (it s) /
                      (reg_unsup_warm_up cfg * inject_Z (num_train_iter cfg))) 0 1)%Q /\
    out_feat out = fd /\
    dict_get "train_reg/sup_loss" log = Some sup /\
    dict_get "train_reg/unsup_loss" log = Some unsup /\
    dict_get "train_reg/total_loss" log = Some (loss out).
Proof.
  intros H1 H2 H3 H4 H5 H6 H7.
  assert (HW : warmup_ramp (it s) (reg_unsup_warm_up cfg) (num_train_iter cfg) =
               Ok (np_clip (inject_Z (it s) /
                      (reg_unsup_warm_up cfg * inject_Z (num_train_iter cfg))) 0 1)).
  { unfold warmup_ramp. now rewrite (py_truediv_nonzero _ _ H7). }
  pose proof (mt_amp_block_returns cfg b s o_lb o_w o_w2 fd sup unsup _
                H1 H2 H3 H4 H5 H6 HW) as HB.
  unfold train_step. rewrite (bind_Ok _ _ _ _ _ HB).
  unfold ret, process_out_dict, process_log_dict.
  eexists _, _, _. split; [reflexivity|].
  cbn. repeat split; reflexivity.
Qed.

End MeanTeacher.

End MeanTeacher.

(** * CLSS ([semilearn/algorithms/clss/clss.py]) *)

Module CLSS.
Import Base.
Local Open Scope train_scope.

Record Config : Type := mkConfig {
  reg_lambda_val : Q;
  reg_lb_ctr_loss_ratio : Q;
  reg_ulb_ctr_loss_ratio : Q;
  reg_ulb_rank_loss_ratio : Q
}.

(** [train_step(self, x_lb, y_lb, x_ulb_w, **kwargs)] *)
Record Batch : Type := mkBatch {
  x_lb : Tensor;
  y_lb : Tensor;
  x_ulb_w : Tensor;
  kwargs : Dict Tensor
}.

(** The local variables the [with self.amp_cm():] block leaves behind. *)
Record Locals : Type := mkLocals {
  feat_dict : Dict Tensor;
  sup_loss : Q;
  unsup_loss : Q;
  total_loss : Q
}.

Section CLSS.

Variable net : Params -> list bool -> Tensor -> Result ModelOutput.
Variable net_feat : Params -> list bool -> Tensor -> Result Tensor.
Variable reg_loss : Tensor -> Tensor -> string -> Result Q.
(** [ordinal_entropy(features, targets)], [ulb_rank(features, lambda_val)]
    and [ulb_rank_prdlb(logits, lambda_val, pred_inp=...)]: loss kernels of
    the sibling modules [ordinal_entropy.py] and [ulb_rank.py]. *)
Variable ordinal_entropy : Tensor -> Tensor -> Result Q.
Variable ulb_rank : Tensor -> Q -> Result (Q * Tensor).
Variable ulb_rank_prdlb : Tensor -> Q -> Tensor -> Result Q.

(** Lines 53-75. *)
Definition amp_block (cfg : Config) (b : Batch) : M Locals :=
  x_lb_outputs <- forward net (x_lb b) ;;
  let logits_x_lb := logits x_lb_outputs in
  let feats_x_lb := feat x_lb_outputs in
  x_ulb_outputs <- forward net (x_ulb_w b) ;;
  let logits_x_ulb_w := logits x_ulb_outputs in
  let feats_x_ulb_w := feat x_ulb_outputs in
  feat_dict <- extra_feats net_feat (kwargs b)
                 [("x_lb"%string, feats_x_lb); ("x_ulb_w"%string, feats_x_ulb_w)] ;;
  sup_reg_loss <- lift (reg_loss logits_x_lb (y_lb b) "mean") ;;
  sup_ctr_loss <- lift (ordinal_entropy feats_x_lb (y_lb b)) ;;
  let sup_loss := (sup_reg_loss + reg_lb_ctr_loss_ratio cfg * sup_ctr_loss)%Q in
  ranked <- lift (ulb_rank feats_x_ulb_w (reg_lambda_val cfg)) ;;
  let unsup_ctr_loss := fst ranked in
  let ft_rank := snd ranked in
  unsqueezed <- lift (unsqueeze logits_x_ulb_w 1) ;;
  unsup_rank_loss <- lift (ulb_rank_prdlb unsqueezed (reg_lambda_val cfg) ft_rank) ;;
  let unsup_loss := (reg_ulb_ctr_loss_ratio cfg * unsup_ctr_loss
                     + reg_ulb_rank_loss_ratio cfg * unsup_rank_loss)%Q in
  let total_loss := (sup_loss + unsup_loss)%Q in
  ret (mkLocals feat_dict sup_loss unsup_loss total_loss).

(** Lines 51-82. *)
Definition train_step (cfg : Config) (b : Batch) : M (OutDict * Dict Q) :=
  l <- amp_block cfg b ;;
  let out_dict := process_out_dict (total_loss l) (feat_dict l) in
  let log_dict := process_log_dict [("total_loss"%string, total_loss l)] in
  let log_dict := dict_set "train_reg/sup_loss" (sup_loss l) log_dict in
  let log_dict := dict_set "train_reg/unsup_loss" (unsup_loss l) log_dict in
  let log_dict := dict_set "train_reg/total_loss" (total_loss l) log_dict in
  ret (out_dict, log_dict).

(** The passes of a step on the student: both under the live parameters
    and the flags as they stand. *)
Definition passes_trace (b : Batch) (s : AlgState) : list Event :=
  [EvForward (x_lb b) (params (model s)) (bn_flags (model s));
   EvForward (x_ulb_w b) (params (model s)) (bn_flags (model s))].

(** A pass through the model as the step found it. *)
Definition student_pass (s : AlgState) (ev : Event) : Prop :=
  exists x, ev = EvForward x (params (model s)) (bn_flags (model s)).

Ltac run_step := try unfold amp_block in *; run_base.

Ltac open_state s :=
  destruct s as [[? ?] [? ?] [?] ? ? ? ?]; run_step.

Ltac next_call H :=
  match type of H with
  | context [match ?c with Ok _ => _ | Raise _ => _ end] =>
      let E := fresh "E" in destruct c eqn:E; run_step
  end.

Ltac feats_call H :=
  unfold bind at 1 in H; rewrite extra_feats_exec in H; run_step.

Lemma clss_extra_feats_run_student (p : Params) (flags : list bool) (kw fd : Dict Tensor) :
  Forall (fun ev => exists x, ev = EvForward x p flags)
    (snd (extra_feats_run net_feat p flags kw fd)).
Proof.
  revert fd. induction kw as [|[k x] rest IH]; intros fd; simpl.
  - constructor.
  - destruct (net_feat p flags x) as [f|e].
    + specialize (IH (dict_set k f fd)).
      destruct (extra_feats_run net_feat p flags rest (dict_set k f fd)) as [r evs].
      simpl in *. constructor; [now exists x | exact IH].
    + simpl. constructor; [now exists x | constructor].
Qed.

Lemma clss_amp_block_returns (cfg : Config) (b : Batch) (s : AlgState)
    (o_lb o_w : ModelOutput) (fd : Dict Tensor)
    (reg ctr uctr urank : Q) (ft_rank u : Tensor) :
  net (params (model s)) (bn_flags (model s)) (x_lb b) = Ok o_lb ->
  net (params (model s)) (bn_flags (model s)) (x_ulb_w b) = Ok o_w ->
  fst (extra_feats_run net_feat (params (model s)) (bn_flags (model s)) (kwargs b)
         [("x_lb"%string, feat o_lb); ("x_ulb_w"%string, feat o_w)]) = Ok fd ->
  reg_loss (logits o_lb) (y_lb b) "mean" = Ok reg ->
  ordinal_entropy (feat o_lb) (y_lb b) = Ok ctr ->
  ulb_rank (feat o_w) (reg_lambda_val cfg) = Ok (uctr, ft_rank) ->
  unsqueeze (logits o_w) 1 = Ok u ->
  ulb_rank_prdlb u (reg_lambda_val cfg) ft_rank = Ok urank ->
  amp_block cfg b s =
  (Ok (mkLocals fd
         (reg + reg_lb_ctr_loss_ratio cfg * ctr)%Q
         (reg_ulb_ctr_loss_ratio cfg * uctr + reg_ulb_rank_loss_ratio cfg * urank)%Q
         ((reg + reg_lb_ctr_loss_ratio cfg * ctr)
          + (reg_ulb_ctr_loss_ratio cfg * uctr + reg_ulb_rank_loss_ratio cfg * urank))%Q),
   set_trace
     (trace s ++ passes_trace b s ++
      snd (extra_feats_run net_feat (params (model s)) (bn_flags (model s)) (kwargs b)
             [("x_lb"%string, feat o_lb); ("x_ulb_w"%string, feat o_w)])) s).
Proof.
  intros H1 H2 H3 H4 H5 H6 H7 H8. unfold passes_trace.
  open_state s.
  rewrite H1. run_step. rewrite H2. run_step.
  erewrite bind_Ok by (rewrite extra_feats_exec; run_step; rewrite H3; reflexivity).
  run_step. rewrite H4. run_step. rewrite H5. run_step. rewrite H6. run_step.
  rewrite H7. run_step. rewrite H8.
  repeat rewrite <- app_assoc. reflexivity.
Qed.

(** Whatever the outcome, a step leaves the algorithm object as it was
    and adds student passes to the trace. *)
Lemma clss_amp_block_frame (cfg : Config) (b : Batch) (s : AlgState) :
  exists evs,
    snd (amp_block cfg b s) = set_trace (trace s ++ evs) s /\
    Forall (student_pass s) evs.
Proof.
  unfold student_pass.
  pose proof (clss_extra_feats_run_student (params (model s)) (bn_flags (model s))) as HF.
  destruct s as [[p f] [sh bk] [bb] h idx i t]; run_step.
  destruct (net p f (x_lb b)) as [o_lb|e] eqn:E1; run_step.
  2:{ eexists. split; [reflexivity|]. repeat constructor. eexists; reflexivity. }
  destruct (net p f (x_ulb_w b)) as [o_w|e] eqn:E2; run_step.
  2:{ eexists. split; [rewrite <- app_assoc; reflexivity|].
      repeat constructor; eexists; reflexivity. }
  unfold bind at 1. rewrite extra_feats_exec. run_step.
  match goal with
  | |- context [extra_feats_run net_feat p f ?kw ?fd] =>
      specialize (HF kw fd);
      destruct (extra_feats_run net_feat p f kw fd) as [r evs] eqn:E3
  end.
  cbn [fst snd] in *.
  assert (HA : Forall (fun ev => exists x, ev = EvForward x p f)
                 ([EvForward (x_lb b) p f; EvForward (x_ulb_w b) p f] ++ evs)).
  { constructor; [eexists; reflexivity|].
    constructor; [eexists; reflexivity|]. exact HF. }
  assert (HT : forall st : AlgState,
             st = mkAlg (mkModel p f) (mkEMA sh bk) (mkBN bb) h idx i
                    (((t ++ [EvForward (x_lb b) p f]) ++ [EvForward (x_ulb_w b) p f]) ++ evs) ->
             exists evs0,
               st =
               mkAlg (mkModel p f) (mkEMA sh bk) (mkBN bb) h idx i (t ++ evs0) /\
               Forall (fun ev => exists x, ev = EvForward x p f) evs0).
  { intros st ->. eexists. split; [|exact HA].
    repeat rewrite <- app_assoc. reflexivity. }
  destruct r as [fd|e]; run_step; [|apply HT; reflexivity].
  repeat match goal with
  | |- context [match ?c with Ok _ => _ | Raise _ => _ end] =>
      destruct c; run_step; [|apply HT; reflexivity]
  end.
  apply HT; reflexivity.
Qed.

Lemma clss_amp_block_Ok_inv (cfg : Config) (b : Batch) (s s' : AlgState) (l : Locals) :
  amp_block cfg b s = (Ok l, s') ->
  exists o_lb o_w reg ctr uctr ft_rank u urank,
    net (params (model s)) (bn_flags (model s)) (x_lb b) = Ok o_lb /\
    net (params (model s)) (bn_flags (model s)) (x_ulb_w b) = Ok o_w /\
    reg_loss (logits o_lb) (y_lb b) "mean" = Ok reg /\
    ordinal_entropy (feat o_lb) (y_lb b) = Ok ctr /\
    ulb_rank (feat o_w) (reg_lambda_val cfg) = Ok (uctr, ft_rank) /\
    unsqueeze (logits o_w) 1 = Ok u /\
    ulb_rank_prdlb u (reg_lambda_val cfg) ft_rank = Ok urank /\
    sup_loss l = (reg + reg_lb_ctr_loss_ratio cfg * ctr)%Q /\
    unsup_loss l = (reg_ulb_ctr_loss_ratio cfg * uctr
                    + reg_ulb_rank_loss_ratio cfg * urank)%Q /\
    total_loss l = (sup_loss l + unsup_loss l)%Q.
Proof.
  intros H.
  open_state s.
  next_call H; [|discriminate].
  next_call H; [|discriminate].
  feats_call H.
  repeat (next_call H; [|discriminate]).
  injection H as <- <-. cbn.
  match goal with E : ulb_rank _ _ = Ok ?p |- _ => destruct p as [uctr ft_rank] end.
  eexists _, _, _, _, uctr, ft_rank, _, _.
  repeat split; eassumption.
Qed.

Lemma clss_train_step_snd (cfg : Config) (b : Batch) (s : AlgState) :
  snd (train_step cfg b s) = snd (amp_block cfg b s).
Proof.
  unfold train_step, bind, ret.
  now destruct (amp_block cfg b s) as [[l|e] s1].
Qed.

(** C7.  When the two passes, the feature passes and the four loss
    kernels return, [CLSS.train_step] returns
    [total_loss = reg_loss(logits_x_lb, y_lb)
                  + reg_lb_ctr_loss_ratio * ordinal_entropy(feats_x_lb, y_lb)
                  + reg_ulb_ctr_loss_ratio * unsup_ctr_loss
                  + reg_ulb_rank_loss_ratio * unsup_rank_loss],
    the unsupervised terms coming from [ulb_rank] and [ulb_rank_prdlb] on
    the weak unlabeled view; only the three configured ratios weight the
    sum, and the iteration counter plays no part (no warm-up factor). *)
Theorem clss_total_loss (cfg : Config) (b : Batch) (s : AlgState)
    (o_lb o_w : ModelOutput) (fd : Dict Tensor)
    (reg ctr uctr urank : Q) (ft_rank u : Tensor) :
  net (params (model s)) (bn_flags (model s)) (x_lb b) = Ok o_lb ->
  net (params (model s)) (bn_flags (model s)) (x_ulb_w b) = Ok o_w ->
  fst (extra_feats_run net_feat (params (model s)) (bn_flags (model s)) (kwargs b)
         [("x_lb"%string, feat o_lb); ("x_ulb_w"%string, feat o_w)]) = Ok fd ->
  reg_loss (logits o_lb) (y_lb b) "mean" = Ok reg ->
  ordinal_entropy (feat o_lb) (y_lb b) = Ok ctr ->
  ulb_rank (feat o_w) (reg_lambda_val cfg) = Ok (uctr, ft_rank) ->
  unsqueeze (logits o_w) 1 = Ok u ->
  ulb_rank_prdlb u (reg_lambda_val cfg) ft_rank = Ok urank ->
  exists out log,
    (forall i : Z,
       fst (train_step cfg b (set_it i s)) = Ok (out, log)) /\
    fst (train_step cfg b s) = Ok (out, log) /\
    loss out ==
      reg + reg_lb_ctr_loss_ratio cfg * ctr
          + reg_ulb_ctr_loss_ratio cfg * uctr
          + reg_ulb_rank_loss_ratio cfg * urank /\
    dict_get "train_reg/sup_loss" log = Some (reg + reg_lb_ctr_loss_ratio cfg * ctr)%Q /\
    dict_get "train_reg/unsup_loss" log =
      Some (reg_ulb_ctr_loss_ratio cfg * uctr + reg_ulb_rank_loss_ratio cfg * urank)%Q.
Proof.
  intros H1 H2 H3 H4 H5 H6 H7 H8.
  assert (HS : forall s0 : AlgState,
            model s0 = model s ->
            exists s1,
              train_step cfg b s0 =
              (Ok (mkOutDict
                     ((reg + reg_lb_ctr_loss_ratio cfg * ctr)
                      + (reg_ulb_ctr_loss_ratio cfg * uctr
                         + reg_ulb_rank_loss_ratio cfg * urank))%Q fd,
                   dict_set "train_reg/total_loss"
                     ((reg + reg_lb_ctr_loss_ratio cfg * ctr)
                      + (reg_ulb_ctr_loss_ratio cfg * uctr
                         + reg_ulb_rank_loss_ratio cfg * urank))%Q
                     (dict_set "train_reg/unsup_loss"
                        (reg_ulb_ctr_loss_ratio cfg * uctr
                         + reg_ulb_rank_loss_ratio cfg * urank)%Q
                        (dict_set "train_reg/sup_loss"
                           (reg + reg_lb_ctr_loss_ratio cfg * ctr)%Q
                           [("total_loss"%string,
                             ((reg + reg_lb_ctr_loss_ratio cfg * ctr)
                              + (reg_ulb_ctr_loss_ratio cfg * uctr
                                 + reg_ulb_rank_loss_ratio cfg * urank))%Q)]))), s1)).
  { intros s0 Hm.
    pose proof (clss_amp_block_returns cfg b s0 o_lb o_w fd reg ctr uctr urank ft_rank u)
      as HB.
    rewrite Hm in HB. specialize (HB H1 H2 H3 H4 H5 H6 H7 H8).
    eexists. unfold train_step. rewrite (bind_Ok _ _ _ _ _ HB). reflexivity. }
  eexists _, _. split; [|split].
  - intros i. destruct (HS (set_it i s)) as [s1 E].
    + now destruct s.
    + rewrite E. reflexivity.
  - destruct (HS s eq_refl) as [s1 E]. now rewrite E.
  - cbn. repeat split; try reflexivity. ring.
Qed.

(** C10.  [CLSS.train_step] never invokes the EMA controller or the
    batch-norm controller: whatever the outcome, the EMA state, the
    batch-norm controller, the live parameters and every batch-norm flag
    are unchanged, and everything the step did to the model is a forward
    pass through the student as the step found it; the losses of a
    completed step are computed from the outputs of those passes. *)
Theorem clss_step_leaves_controllers (cfg : Config) (b : Batch) (s : AlgState) :
  ema (snd (train_step cfg b s)) = ema s /\
  bn_controller (snd (train_step cfg b s)) = bn_controller s /\
  model (snd (train_step cfg b s)) = model s /\
  (exists evs,
     trace (snd (train_step cfg b s)) = trace s ++ evs /\
     Forall (student_pass s) evs) /\
  (forall out log s',
     train_step cfg b s = (Ok (out, log), s') ->
     exists o_lb o_w reg ctr uctr ft_rank u urank,
       net (params (model s)) (bn_flags (model s)) (x_lb b) = Ok o_lb /\
       net (params (model s)) (bn_flags (model s)) (x_ulb_w b) = Ok o_w /\
       reg_loss (logits o_lb) (y_lb b) "mean" = Ok reg /\
       ordinal_entropy (feat o_lb) (y_lb b) = Ok ctr /\
       ulb_rank (feat o_w) (reg_lambda_val cfg) = Ok (uctr, ft_rank) /\
       unsqueeze (logits o_w) 1 = Ok u /\
       ulb_rank_prdlb u (reg_lambda_val cfg) ft_rank = Ok urank /\
       loss out = ((reg + reg_lb_ctr_loss_ratio cfg * ctr)
                   + (reg_ulb_ctr_loss_ratio cfg * uctr
                      + reg_ulb_rank_loss_ratio cfg * urank))%Q).
Proof.
  split; [|split; [|split; [|split]]].
  1-4: rewrite clss_train_step_snd;
       destruct (clss_amp_block_frame cfg b s) as (evs & -> & HF);
       destruct s as [m e c h idx i t]; cbn; try reflexivity.
  - now exists evs.
  - intros out log s' H. unfold train_step in H.
    apply bind_Ok_inv in H as (l & s1 & H1 & H).
    unfold ret, process_out_dict in H. injection H as <- _ _.
    apply clss_amp_block_Ok_inv in H1
      as (o_lb & o_w & reg & ctr & uctr & ft_rank & u & urank &
          E1 & E2 & E3 & E4 & E5 & E6 & E7 & Es & Eu & Et).
    exists o_lb, o_w, reg, ctr, uctr, ft_rank, u, urank.
    repeat split; try assumption.
    cbn. now rewrite Et, Es, Eu.
Qed.

End CLSS.

End CLSS.

(** * RankUp ([semilearn/algorithms/rankup/rankup.py]) *)

Module RankUp.
Import Base.
Local Open Scope train_scope.

(** The attributes set by [init] (lines 60-68), and the base class's
    [self.reg_ulb_loss_ratio] and [self.num_train_iter]. *)
Record Config : Type := mkConfig {
  use_rda : bool;
  reg_unsup_warm_up : Q;
  rda_num_refine_iter : Z;
  cls_ulb_loss_ratio : Q;
  cls_loss_ratio : Q;
  T : Q;
  p_cutoff : Q;
  use_hard_label : bool;
  reg_ulb_loss_ratio : Q;
  num_train_iter : Z
}.

(** [train_step(self, x_lb, y_lb, idx_ulb, x_ulb_w, x_ulb_s)] *)
Record Batch : Type := mkBatch {
  x_lb : Tensor;
  y_lb : Tensor;
  idx_ulb : list Z;
  x_ulb_w : Tensor;
  x_ulb_s : Tensor
}.

(** The keyword arguments of the three hook calls of the step. *)
Inductive Kwargs : Type :=
| KwTargets (logits : Tensor)
| KwMasking (logits_x_ulb : Tensor) (softmax_x_ulb : bool)
| KwPseudoLabel (logits : Tensor) (use_hard_label : bool) (T : Q) (softmax : bool).

(** The local variables the [with self.amp_cm():] block leaves behind. *)
Record Locals : Type := mkLocals {
  feat_dict : Dict Tensor;
  probs_x_ulb_w : Tensor;
  reg_sup_loss : Q;
  reg_unsup_loss : Q;
  mask : Tensor;
  cls_sup_loss : Q;
  cls_unsup_loss : Q;
  reg_unsup_warmup : Q;
  total_reg_loss : Q;
  total_cls_loss : Q;
  total_loss : Q
}.

(** ** The masking hook and the masked consistency loss *)

(** The rows of a [B x C] tensor. *)
Fixpoint chunk (B C : nat) (l : list Q) : list (list Q) :=
  match B with
  | O => []
  | S B' => firstn C l :: chunk B' C (skipn C l)
  end.

Definition row_max (r : list Q) : Q := fold_right Qmax (hd 0%Q r) (tl r).

(** Modelled from the spec: the confidence of each unlabeled sample, the
    maximum of its probability row. *)
Definition max_probs (probs : Tensor) : Result (list Q) :=
  match shape probs with
  | [B; C] =>
      if ((List.length (data probs) =? B * C) && (0 <? C))%nat
      then Ok (map row_max (chunk B C (data probs)))
      else Raise ShapeError
  | _ => Raise ShapeError
  end.

(** Modelled from the spec: "binary mask, 1 where confidence >= cutoff
    else 0". *)
Definition threshold (p_cutoff : Q) (conf : list Q) : list Q :=
  map (fun c => if Qle_bool p_cutoff c then 1%Q else 0%Q) conf.

(** The mean over the batch.  For an empty batch torch yields NaN, which
    the rational model does not have: that outcome is [NonFinite]. *)
Definition mean (l : list Q) : Result Q :=
  match l with
  | [] => Raise NonFinite
  | _ => Ok (fold_right Qplus 0%Q l / inject_Z (Z.of_nat (List.length l)))%Q
  end.

Fixpoint mul_mask (per m : list Q) : list Q :=
  match per, m with
  | x :: per', w :: m' => (x * w)%Q :: mul_mask per' m'
  | _, _ => []
  end.

(** *** Facts about masks *)

Lemma threshold_nth (p : Q) (conf : list Q) (i : nat) (c : Q) :
  nth_error conf i = Some c ->
  (p <= c -> nth_error (threshold p conf) i = Some 1%Q) /\
  (c < p -> nth_error (threshold p conf) i = Some 0%Q).
Proof.
  intros Hc. unfold threshold. rewrite nth_error_map, Hc. simpl. split; intros H.
  - apply Qle_bool_iff in H. now rewrite H.
  - destruct (Qle_bool p c) eqn:E; [|reflexivity].
    apply Qle_bool_iff in E. exfalso. exact (Qlt_not_le _ _ H E).
Qed.

Lemma threshold_all_ones (p : Q) (conf : list Q) :
  Forall (fun c => p <= c) conf ->
  threshold p conf = repeat 1%Q (List.length conf).
Proof.
  induction 1 as [|c conf Hc _ IH]; simpl; [reflexivity|].
  apply Qle_bool_iff in Hc. now rewrite Hc, IH.
Qed.

Lemma threshold_all_zeros (p : Q) (conf : list Q) :
  Forall (fun c => c < p) conf ->
  threshold p conf = repeat 0%Q (List.length conf).
Proof.
  induction 1 as [|c conf Hc _ IH]; simpl; [reflexivity|].
  rewrite IH. destruct (Qle_bool p c) eqn:E; [|reflexivity].
  apply Qle_bool_iff in E. exfalso. exact (Qlt_not_le _ _ Hc E).
Qed.

Lemma mul_mask_zeros (per : list Q) :
  Forall (fun x => x == 0) (mul_mask per (repeat 0%Q (List.length per))) /\
  List.length (mul_mask per (repeat 0%Q (List.length per))) = List.length per.
Proof.
  induction per as [|x per [IH1 IH2]]; simpl.
  - split; [constructor | reflexivity].
  - split; [|now rewrite IH2].
    constructor; [apply Qmult_0_r | exact IH1].
Qed.

Lemma sum_zeros (l : list Q) :
  Forall (fun x => x == 0) l -> fold_right Qplus 0%Q l == 0.
Proof.
  induction 1 as [|x l Hx _ IH]; simpl; [reflexivity|].
  rewrite Hx, IH. reflexivity.
Qed.

Lemma mean_zeros (l : list Q) :
  l <> [] -> Forall (fun x => x == 0) l ->
  exists v, mean l = Ok v /\ v == 0.
Proof.
  intros Hne Hz. destruct l as [|x l]; [contradiction|].
  eexists. split; [reflexivity|].
  rewrite (sum_zeros _ Hz). unfold Qdiv. apply Qmult_0_l.
Qed.

Section RankUp.

(** [self.model(x, use_arc=True, targets=...)]: the RankUp network. *)
Variable net_arc : option Tensor -> Params -> list bool -> Tensor -> Result ModelOutput.
(** [self.compute_prob]: softmax of the base class. *)
Variable compute_prob : Tensor -> Tensor.
Variable reg_loss : Tensor -> Tensor -> string -> Result Q.
Variable reg_consistency_loss : Tensor -> Tensor -> string -> Result Q.
(** [self.cls_loss = CELoss()] *)
Variable cls_loss : Tensor -> Tensor -> string -> Result Q.
(** The per-sample kernel of [ClsConsistencyLoss] (cross entropy for
    ["ce"]), before masking and reduction. *)
Variable cls_consistency_kernel : Tensor -> Tensor -> string -> Result (list Q).
(** [RDAHook.gen_ulb_targets] ([rda.py]): reads the model, [algorithm.idx_ulb]
    and the logits, may refine its buffer, returns the targets. *)
Variable rda_gen_ulb_targets :
  RDAState -> Model -> list Z -> Tensor -> Result Tensor * RDAState.
(** [PseudoLabelingHook.gen_ulb_targets(logits, use_hard_label, T, softmax)] *)
Variable pl_gen_ulb_targets : Tensor -> bool -> Q -> bool -> Result Tensor.
(** The statistic of the labeled targets the RDA buffer starts from. *)
Variable rda_init_statistic : list Q -> Q.

(** Modelled from the spec: [FixedThresholdingHook.masking(logits_x_ulb,
    softmax_x_ulb)], reading [algorithm.p_cutoff]. *)
Definition masking (p_cutoff : Q) (logits_x_ulb : Tensor) (softmax_x_ulb : bool) : Result Tensor :=
  let probs_x_ulb :=
    if softmax_x_ulb then compute_prob (detach logits_x_ulb) else detach logits_x_ulb in
  match max_probs probs_x_ulb with
  | Ok conf => Ok (mkTensor [List.length conf] (threshold p_cutoff conf))
  | Raise e => Raise e
  end.

(** Modelled from the spec: [self.cls_consistency_loss(logits, targets,
    name, mask=mask)]: the per-sample losses, each weighted by its mask
    entry, averaged over the batch. *)
Definition cls_consistency_loss (logits targets : Tensor) (name : string)
    (mask : option Tensor) : Result Q :=
  match cls_consistency_kernel logits targets name with
  | Raise e => Raise e
  | Ok per =>
      match mask with
      | None => mean per
      | Some m =>
          if (List.length (data m) =? List.length per)%nat
          then mean (mul_mask per (data m))
          else Raise ShapeError
      end
  end.

(** ** Hooks *)

(** Modelled from the spec: the RDA hook as constructed in [set_hooks]:
    a buffer of [train_ulb_len] entries filled with a statistic of the
    labeled targets. *)
Definition RDAHook_init (train_ulb_len : nat) (lb_targets : list Q)
    (num_refine_iter : Z) : Hook :=
  RDAHook (mkRDA (repeat (rda_init_statistic lb_targets) train_ulb_len)
             lb_targets num_refine_iter 0).

(** Lines 70-82; [base_hooks] is what [super().set_hooks()] registered. *)
Definition set_hooks (cfg : Config) (train_ulb_len : nat) (lb_targets : list Q)
    (base_hooks : Dict Hook) : Dict Hook :=
  let hooks := register_hook
                 (RDAHook_init train_ulb_len lb_targets (rda_num_refine_iter cfg))
                 "RDAHook" base_hooks in
  let hooks := register_hook PseudoLabelingHook "PseudoLabelingHook" hooks in
  register_hook FixedThresholdingHook "MaskingHook" hooks.

(** Modelled from the spec: [self.call_hook(fn_name, hook_name, **kwargs)]:
    the hook is looked up by name and the named operation resolved on its
    variant. *)
Definition call_hook (cfg : Config) (fn_name hook_name : string) (kw : Kwargs) : M Tensor :=
  emit (EvCallHook fn_name hook_name) ;;
  hooks <- gets hooks_dict ;;
  match dict_get hook_name hooks with
  | None => raise (KeyError hook_name)
  | Some (RDAHook st) =>
      if String.eqb fn_name "gen_ulb_targets" then
        match kw with
        | KwTargets logits =>
            m <- gets model ;;
            idx <- gets self_idx_ulb ;;
            let (r, st') := rda_gen_ulb_targets st m idx logits in
            modify (fun s => set_hooks_dict (dict_set hook_name (RDAHook st') (hooks_dict s)) s) ;;
            lift r
        | _ => raise TypeError
        end
      else raise (AttributeError fn_name)
  | Some PseudoLabelingHook =>
      if String.eqb fn_name "gen_ulb_targets" then
        match kw with
        | KwPseudoLabel logits hard temp softmax =>
            lift (pl_gen_ulb_targets logits hard temp softmax)
        | _ => raise TypeError
        end
      else raise (AttributeError fn_name)
  | Some FixedThresholdingHook =>
      if String.eqb fn_name "masking" then
        match kw with
        | KwMasking logits_x_ulb softmax_x_ulb =>
            lift (masking (p_cutoff cfg) logits_x_ulb softmax_x_ulb)
        | _ => raise TypeError
        end
      else raise (AttributeError fn_name)
  | Some OtherHook => raise (AttributeError fn_name)
  end.

(** ** The train step *)

(** Lines 105-158. *)
Definition amp_block (cfg : Config) (b : Batch) : M Locals :=
  outs_x_lb <- forward (net_arc (Some (y_lb b))) (x_lb b) ;;
  let logits_x_lb := logits outs_x_lb in
  let feats_x_lb := feat outs_x_lb in
  logits_arc_x_lb <- getitem "logits_arc" (logits_arc outs_x_lb) ;;
  arc_y_lb <- getitem "targets_arc" (targets_arc outs_x_lb) ;;
  freeze_bn ;;
  outs_x_ulb_w <- forward (net_arc None) (x_ulb_w b) ;;
  let logits_x_ulb_w := logits outs_x_ulb_w in
  let feats_x_ulb_w := feat outs_x_ulb_w in
  logits_arc_x_ulb_w <- getitem "logits_arc" (logits_arc outs_x_ulb_w) ;;
  let probs_x_ulb_w := compute_prob (detach logits_arc_x_ulb_w) in
  unfreeze_bn ;;
  outs_x_ulb_s <- forward (net_arc None) (x_ulb_s b) ;;
  logits_x_ulb_s <- getitem "logits_arc" (logits_arc outs_x_ulb_s) ;;
  let feats_x_ulb_s := feat outs_x_ulb_s in
  let feat_dict := [("x_lb"%string, feats_x_lb);
                    ("x_ulb_w"%string, feats_x_ulb_w);
                    ("x_ulb_s"%string, feats_x_ulb_s)] in
  reg_sup_loss <- lift (reg_loss logits_x_lb (y_lb b) "mean") ;;
  reg_unsup_loss <-
    (if use_rda cfg then
       reg_pseudo_label <- call_hook cfg "gen_ulb_targets" "RDAHook"
                             (KwTargets logits_x_ulb_w) ;;
       let reg_pseudo_label := detach reg_pseudo_label in
       lift (reg_consistency_loss logits_x_ulb_w reg_pseudo_label "mse")
     else ret 0%Q) ;;
  mask <- call_hook cfg "masking" "MaskingHook" (KwMasking probs_x_ulb_w false) ;;
  arc_pseudo_label <- call_hook cfg "gen_ulb_targets" "PseudoLabelingHook"
                        (KwPseudoLabel probs_x_ulb_w (use_hard_label cfg) (T cfg) false) ;;
  cls_sup_loss <- lift (cls_loss logits_arc_x_lb arc_y_lb "mean") ;;
  cls_unsup_loss <- lift (cls_consistency_loss logits_x_ulb_s arc_pseudo_label "ce" (Some mask)) ;;
  self_it <- gets it ;;
  reg_unsup_warmup <- lift (warmup_ramp self_it (reg_unsup_warm_up cfg) (num_train_iter cfg)) ;;
  let total_reg_loss := (reg_sup_loss + reg_ulb_loss_ratio cfg * reg_unsup_loss * reg_unsup_warmup)%Q in
  let total_cls_loss := (cls_sup_loss + cls_ulb_loss_ratio cfg * cls_unsup_loss)%Q in
  let total_loss := (total_reg_loss + cls_loss_ratio cfg * total_cls_loss)%Q in
  ret (mkLocals feat_dict probs_x_ulb_w reg_sup_loss reg_unsup_loss mask
         cls_sup_loss cls_unsup_loss reg_unsup_warmup
         total_reg_loss total_cls_loss total_loss).

(** Lines 101-162. *)
Definition train_step (cfg : Config) (b : Batch) : M (OutDict * Dict Q) :=
  modify (set_idx_ulb (idx_ulb b)) ;;
  l <- amp_block cfg b ;;
  let out_dict := process_out_dict (total_loss l) (feat_dict l) in
  let log_dict := process_log_dict [("reg_loss"%string, total_reg_loss l);
                                    ("cls_loss"%string, total_cls_loss l);
                                    ("total_loss"%string, total_loss l)] in
  ret (out_dict, log_dict).

(** The algorithm object when an exception leaves the bracket of lines
    112-118: batch-norm frozen. *)
Definition frozen_leak (b : Batch) (s : AlgState) : AlgState :=
  mkAlg (mkModel (params (model s)) (frozen (bn_flags (model s))))
    (ema s) (mkBN (Some (bn_flags (model s))))
    (hooks_dict s) (self_idx_ulb s) (it s)
    (trace s ++
     [EvForward (x_lb b) (params (model s)) (bn_flags (model s));
      EvFreezeBN;
      EvForward (x_ulb_w b) (params (model s)) (frozen (bn_flags (model s)))]).

(** An event that is a call of the hook registered as [name]. *)
Definition calls_hook (name : string) (ev : Event) : bool :=
  match ev with
  | EvCallHook _ n => String.eqb n name
  | _ => false
  end.

Ltac run_step :=
  try unfold amp_block, call_hook in *; run_base;
  cbn [String.eqb Ascii.eqb Bool.eqb] in *.

Ltac open_state s :=
  destruct s as [[? ?] [? ?] [?] ? ? ? ?]; run_step.

Ltac next_in H :=
  match type of H with
  | (match ?c with Ok _ => _ | Raise _ => _ end) = _ =>
      let E := fresh "E" in destruct c eqn:E
  | (match ?c with Some _ => _ | None => _ end) = _ =>
      let E := fresh "E" in destruct c eqn:E
  | (match ?c with
     | RDAHook _ => _ | PseudoLabelingHook => _
     | FixedThresholdingHook => _ | OtherHook => _ end) = _ =>
      destruct c
  | (let (_, _) := ?c in _) = _ =>
      let E := fresh "E" in destruct c eqn:E
  | bind (bind _ _) _ _ = _ => rewrite bind_assoc in H
  | bind (if ?c then _ else _) _ _ = _ =>
      let E := fresh "E" in destruct c eqn:E
  | bind (getitem _ ?c) _ _ = _ =>
      let E := fresh "E" in destruct c eqn:E
  | bind (match ?c with Some _ => _ | None => _ end) _ _ = _ =>
      let E := fresh "E" in destruct c eqn:E
  | bind (match ?c with
          | RDAHook _ => _ | PseudoLabelingHook => _
          | FixedThresholdingHook => _ | OtherHook => _ end) _ _ = _ =>
      destruct c
  | bind (let (_, _) := ?c in _) _ _ = _ =>
      let E := fresh "E" in destruct c eqn:E
  end; run_step.

Lemma ru_amp_block_Raise_inv (cfg : Config) (b : Batch) (s s' : AlgState) (e : Exn) :
  amp_block cfg b s = (Raise e, s') ->
  model s' = model s \/
  ((net_arc None (params (model s)) (frozen (bn_flags (model s))) (x_ulb_w b) = Raise e \/
    exists o, net_arc None (params (model s)) (frozen (bn_flags (model s))) (x_ulb_w b) = Ok o /\
              logits_arc o = None /\ e = KeyError "logits_arc") /\
   s' = frozen_leak b s).
Proof.
  intros H. unfold frozen_leak.
  open_state s.
  next_in H. 2:{ injection H as <- <-. now left. }
  next_in H. 2:{ injection H as <- <-. now left. }
  next_in H. 2:{ injection H as <- <-. now left. }
  next_in H.
  2:{ injection H as <- <-. right. split; [now left|].
      cbn. repeat rewrite <- app_assoc. reflexivity. }
  next_in H.
  2:{ injection H as <- <-. right. split.
      - right. eexists. repeat split; eauto.
      - cbn. repeat rewrite <- app_assoc. reflexivity. }
  left.
  repeat (next_in H; try (injection H as <- <-; reflexivity); try discriminate).
Qed.

(** After [set_hooks] the three hooks of the step are registered under
    the names the step calls them by, whatever the base class registered. *)
Lemma set_hooks_registers (cfg : Config) (n : nat) (lb : list Q) (base_hooks : Dict Hook) :
  dict_get "RDAHook" (set_hooks cfg n lb base_hooks)
    = Some (RDAHook_init n lb (rda_num_refine_iter cfg)) /\
  dict_get "PseudoLabelingHook" (set_hooks cfg n lb base_hooks) = Some PseudoLabelingHook /\
  dict_get "MaskingHook" (set_hooks cfg n lb base_hooks) = Some FixedThresholdingHook.
Proof.
  unfold set_hooks, register_hook. repeat split.
  - rewrite !dict_get_set_other by discriminate. apply dict_get_set_same.
  - rewrite dict_get_set_other by discriminate. apply dict_get_set_same.
  - apply dict_get_set_same.
Qed.

Lemma ru_weak_pass_raises (cfg : Config) (b : Batch) (s : AlgState)
    (o_lb : ModelOutput) (la_lb ya : Tensor) (e : Exn) :
  net_arc (Some (y_lb b)) (params (model s)) (bn_flags (model s)) (x_lb b) = Ok o_lb ->
  logits_arc o_lb = Some la_lb -> targets_arc o_lb = Some ya ->
  net_arc None (params (model s)) (frozen (bn_flags (model s))) (x_ulb_w b) = Raise e ->
  amp_block cfg b s = (Raise e, frozen_leak b s).
Proof.
  intros H1 H1a H1b H2. unfold frozen_leak.
  open_state s. rewrite H1. run_step. rewrite H1a. run_step. rewrite H1b. run_step.
  rewrite H2. cbn. repeat rewrite <- app_assoc. reflexivity.
Qed.

Lemma ru_amp_block_Ok_inv (cfg : Config) (b : Batch) (s s' : AlgState) (l : Locals) :
  amp_block cfg b s = (Ok l, s') ->
  exists o_lb o_w o_s la_lb ya la_w la_s pl,
    net_arc (Some (y_lb b)) (params (model s)) (bn_flags (model s)) (x_lb b) = Ok o_lb /\
    logits_arc o_lb = Some la_lb /\ targets_arc o_lb = Some ya /\
    net_arc None (params (model s)) (frozen (bn_flags (model s))) (x_ulb_w b) = Ok o_w /\
    logits_arc o_w = Some la_w /\
    net_arc None (params (model s)) (bn_flags (model s)) (x_ulb_s b) = Ok o_s /\
    logits_arc o_s = Some la_s /\
    probs_x_ulb_w l = compute_prob la_w /\
    reg_loss (logits o_lb) (y_lb b) "mean" = Ok (reg_sup_loss l) /\
    (if use_rda cfg
     then exists st st' tgt,
            dict_get "RDAHook" (hooks_dict s) = Some (RDAHook st) /\
            rda_gen_ulb_targets st (model s) (self_idx_ulb s) (logits o_w) = (Ok tgt, st') /\
            reg_consistency_loss (logits o_w) tgt "mse" = Ok (reg_unsup_loss l)
     else reg_unsup_loss l = 0%Q /\ hooks_dict s' = hooks_dict s) /\
    masking (p_cutoff cfg) (probs_x_ulb_w l) false = Ok (mask l) /\
    pl_gen_ulb_targets (probs_x_ulb_w l) (use_hard_label cfg) (T cfg) false = Ok pl /\
    cls_loss la_lb ya "mean" = Ok (cls_sup_loss l) /\
    cls_consistency_loss la_s pl "ce" (Some (mask l)) = Ok (cls_unsup_loss l) /\
    warmup_ramp (it s) (reg_unsup_warm_up cfg) (num_train_iter cfg) = Ok (reg_unsup_warmup l) /\
    total_reg_loss l =
      (reg_sup_loss l + reg_ulb_loss_ratio cfg * reg_unsup_loss l * reg_unsup_warmup l)%Q /\
    total_cls_loss l = (cls_sup_loss l + cls_ulb_loss_ratio cfg * cls_unsup_loss l)%Q /\
    total_loss l = (total_reg_loss l + cls_loss_ratio cfg * total_cls_loss l)%Q /\
    model s' = model s /\ ema s' = ema s.
Proof.
  intros H.
  open_state s.
  repeat (next_in H; try discriminate).
  all: injection H as <- <-; cbn; unfold detach in *.
  all: eexists _, _, _, _, _, _, _, _.
  all: repeat (split; [solve [eauto 6]|]); auto.
Qed.

(** With [use_rda] off, no outcome of the block involves the RDA hook. *)
Lemma ru_amp_block_no_rda (cfg : Config) (b : Batch) (s : AlgState) :
  use_rda cfg = false ->
  hooks_dict (snd (amp_block cfg b s)) = hooks_dict s /\
  exists evs,
    trace (snd (amp_block cfg b s)) = trace s ++ evs /\
    forallb (fun ev => negb (calls_hook "RDAHook" ev)) evs = true.
Proof.
  intros Hrda.
  destruct (amp_block cfg b s) as [r s'] eqn:H. cbn [snd].
  open_state s.
  assert (HT : forall t evs, t = trace0 ++ evs ->
            forallb (fun ev => negb (calls_hook "RDAHook" ev)) evs = true ->
            exists evs0, t = trace0 ++ evs0 /\
              forallb (fun ev => negb (calls_hook "RDAHook" ev)) evs0 = true).
  { intros t evs -> Hf. now exists evs. }
  destruct r as [l|e].
  - repeat (next_in H; try discriminate; try congruence).
    all: injection H as <- <-; cbn [hooks_dict trace]; split; [reflexivity|].
    all: eapply HT; [repeat rewrite <- app_assoc; reflexivity | reflexivity].
  - repeat (next_in H; try discriminate; try congruence;
            try (injection H as <- <-; cbn [hooks_dict trace]; split; [reflexivity|];
                 eapply HT; [repeat rewrite <- app_assoc; reflexivity | reflexivity])).
Qed.

Lemma masking_mask (p : Q) (probs m : Tensor) :
  masking p probs false = Ok m ->
  exists conf, max_probs probs = Ok conf /\
    m = mkTensor [List.length conf] (threshold p conf).
Proof.
  unfold masking, detach.
  destruct (max_probs probs) as [conf|e]; intros H; [|discriminate].
  injection H as <-. now exists conf.
Qed.

Lemma zero_mask_loss (logits targets : Tensor) (name : string) (m : Tensor) (v : Q) :
  Forall (fun w => w == 0) (data m) ->
  cls_consistency_loss logits targets name (Some m) = Ok v ->
  v == 0.
Proof.
  intros Hz. unfold cls_consistency_loss.
  destruct (cls_consistency_kernel logits targets name) as [per|e]; [|discriminate].
  destruct (List.length (data m) =? List.length per)%nat; [|discriminate].
  assert (Hm : Forall (fun x => x == 0) (mul_mask per (data m))).
  { clear -Hz. revert per. induction Hz as [|w ws Hw _ IH]; intros [|x per]; simpl;
      try constructor.
    - rewrite Hw. apply Qmult_0_r.
    - apply IH. }
  destruct (mul_mask per (data m)) as [|x l] eqn:E; simpl; [discriminate|].
  intros H. injection H as <-.
  rewrite (sum_zeros _ Hm). unfold Qdiv. apply Qmult_0_l.
Qed.

Lemma zero_mask_loss_returns (logits targets : Tensor) (name : string)
    (m : Tensor) (per : list Q) :
  cls_consistency_kernel logits targets name = Ok per ->
  per <> [] ->
  data m = repeat 0%Q (List.length per) ->
  exists v, cls_consistency_loss logits targets name (Some m) = Ok v /\ v == 0.
Proof.
  intros Hk Hne Hm. unfold cls_consistency_loss. rewrite Hk, Hm.
  rewrite repeat_length, Nat.eqb_refl.
  destruct (mul_mask_zeros per) as [Hz Hl].
  apply mean_zeros; [|exact Hz].
  intros E. rewrite E in Hl. destruct per; [now apply Hne | discriminate].
Qed.

Lemma ru_train_step_Ok_inv (cfg : Config) (b : Batch) (s s' : AlgState)
    (out : OutDict) (log : Dict Q) :
  train_step cfg b s = (Ok (out, log), s') ->
  exists l,
    amp_block cfg b (set_idx_ulb (idx_ulb b) s) = (Ok l, s') /\
    out = mkOutDict (total_loss l) (feat_dict l) /\
    log = [("reg_loss"%string, total_reg_loss l);
           ("cls_loss"%string, total_cls_loss l);
           ("total_loss"%string, total_loss l)].
Proof.
  unfold train_step. intros H.
  apply bind_Ok_inv in H as (u & s1 & H1 & H).
  apply bind_Ok_inv in H as (l & s2 & H2 & H).
  unfold modify in H1. injection H1 as _ <-.
  unfold ret, process_out_dict, process_log_dict in H. injection H as <- <- <-.
  now exists l.
Qed.

Lemma ru_train_step_Raise_inv (cfg : Config) (b : Batch) (s s' : AlgState) (e : Exn) :
  train_step cfg b s = (Raise e, s') ->
  amp_block cfg b (set_idx_ulb (idx_ulb b) s) = (Raise e, s').
Proof.
  unfold train_step, bind, modify, ret.
  destruct (amp_block cfg b (set_idx_ulb (idx_ulb b) s)) as [[l|e0] s1]; intros H.
  - discriminate.
  - now injection H as -> ->.
Qed.

(** With [use_rda] off the block returns as soon as its collaborators do
    and the two hooks it calls are registered. *)
Lemma ru_amp_block_returns (cfg : Config) (b : Batch) (s : AlgState)
    (o_lb o_w o_s : ModelOutput) (la_lb ya la_w la_s m pl : Tensor)
    (rsup csup cunsup wu : Q) :
  use_rda cfg = false ->
  net_arc (Some (y_lb b)) (params (model s)) (bn_flags (model s)) (x_lb b) = Ok o_lb ->
  logits_arc o_lb = Some la_lb -> targets_arc o_lb = Some ya ->
  net_arc None (params (model s)) (frozen (bn_flags (model s))) (x_ulb_w b) = Ok o_w ->
  logits_arc o_w = Some la_w ->
  net_arc None (params (model s)) (bn_flags (model s)) (x_ulb_s b) = Ok o_s ->
  logits_arc o_s = Some la_s ->
  reg_loss (logits o_lb) (y_lb b) "mean" = Ok rsup ->
  dict_get "MaskingHook" (hooks_dict s) = Some FixedThresholdingHook ->
  masking (p_cutoff cfg) (compute_prob la_w) false = Ok m ->
  dict_get "PseudoLabelingHook" (hooks_dict s) = Some PseudoLabelingHook ->
  pl_gen_ulb_targets (compute_prob la_w) (use_hard_label cfg) (T cfg) false = Ok pl ->
  cls_loss la_lb ya "mean" = Ok csup ->
  cls_consistency_loss la_s pl "ce" (Some m) = Ok cunsup ->
  warmup_ramp (it s) (reg_unsup_warm_up cfg) (num_train_iter cfg) = Ok wu ->
  exists s',
    amp_block cfg b s =
    (Ok (mkLocals
           [("x_lb"%string, feat o_lb); ("x_ulb_w"%string, feat o_w);
            ("x_ulb_s"%string, feat o_s)]
           (compute_prob la_w) rsup 0 m csup cunsup wu
           (rsup + reg_ulb_loss_ratio cfg * 0 * wu)
           (csup + cls_ulb_loss_ratio cfg * cunsup)
           (rsup + reg_ulb_loss_ratio cfg * 0 * wu
            + cls_loss_ratio cfg * (csup + cls_ulb_loss_ratio cfg * cunsup)))%Q, s').
Proof.
  intros Hrda H1 H1a H1b H2 H2a H3 H3a H4 Hm Hmk Hp Hpl H5 H6 H7.
  destruct (amp_block cfg b s) as [r s'] eqn:H. exists s'.
  open_state s. unfold detach in *.
  repeat (next_in H; try congruence).
  unfold ret in H. injection H as <- <-.
  repeat f_equal; congruence.
Qed.

(** C4.  With [use_rda = False], the regression unsupervised term
    contributes exactly 0 to [total_reg_loss] in every completed
    [RankUp.train_step] -- [reg_unsup_loss] is the literal 0, the weighted
    term is 0 whatever [reg_ulb_loss_ratio] and the ramp are, and
    [total_reg_loss] equals the supervised regression loss -- and no
    outcome of the step involves the RDA hook: the registry is unchanged
    and the step made no call to it. *)
Theorem rda_disabled_contributes_zero (cfg : Config) (b : Batch) (s : AlgState) :
  use_rda cfg = false ->
  (forall out log s',
     train_step cfg b s = (Ok (out, log), s') ->
     exists l o_lb,
       amp_block cfg b (set_idx_ulb (idx_ulb b) s) = (Ok l, s') /\
       net_arc (Some (y_lb b)) (params (model s)) (bn_flags (model s)) (x_lb b) = Ok o_lb /\
       reg_loss (logits o_lb) (y_lb b) "mean" = Ok (reg_sup_loss l) /\
       reg_unsup_loss l = 0%Q /\
       reg_ulb_loss_ratio cfg * reg_unsup_loss l * reg_unsup_warmup l == 0 /\
       total_reg_loss l == reg_sup_loss l /\
       dict_get "reg_loss" log = Some (total_reg_loss l)) /\
  hooks_dict (snd (train_step cfg b s)) = hooks_dict s /\
  exists evs,
    trace (snd (train_step cfg b s)) = trace s ++ evs /\
    forallb (fun ev => negb (calls_hook "RDAHook" ev)) evs = true.
Proof.
  intros Hrda. split.
  - intros out log s' H.
    apply ru_train_step_Ok_inv in H as (l & H & -> & ->).
    pose proof (ru_amp_block_Ok_inv _ _ _ _ _ H) as
      (o_lb & o_w & o_s & la_lb & ya & la_w & la_s & pl & H1 & _ & _ & _ & _ & _ & _ &
       _ & H4 & Hr & _ & _ & _ & _ & _ & HT & _).
    rewrite Hrda in Hr. destruct Hr as [Hr _].
    exists l, o_lb.
    split; [exact H|]. split; [destruct s; exact H1|].
    split; [exact H4|]. split; [exact Hr|].
    split; [rewrite Hr; ring|]. split; [rewrite HT, Hr; ring | reflexivity].
  - assert (E : snd (train_step cfg b s) =
                snd (amp_block cfg b (set_idx_ulb (idx_ulb b) s))).
    { unfold train_step, bind, modify, ret.
      now destruct (amp_block cfg b (set_idx_ulb (idx_ulb b) s)) as [[l|e] s1]. }
    rewrite E.
    destruct (ru_amp_block_no_rda cfg b (set_idx_ulb (idx_ulb b) s) Hrda) as [Hh Ht].
    rewrite Hh. destruct s as [? ? ? ? ? ? ?]. cbn in *. split; [reflexivity | exact Ht].
Qed.

(** C8 (model of the masking hook and of the masked loss).  The mask is 1
    exactly where the confidence reaches [p_cutoff] and 0 elsewhere; with
    [p_cutoff = 0] and confidences that are probabilities every entry is 1;
    with [p_cutoff = 1] and no confidence equal to 1 every entry is 0, the
    masked consistency loss is then exactly 0 for all logits and
    pseudo-labels, and so it is in a completed [RankUp.train_step]. *)
Theorem masking_cutoff :
  (forall (p : Q) (probs : Tensor) (conf : list Q),
     max_probs probs = Ok conf ->
     masking p probs false = Ok (mkTensor [List.length conf] (threshold p conf)) /\
     (forall i c, nth_error conf i = Some c ->
        (p <= c -> nth_error (threshold p conf) i = Some 1%Q) /\
        (c < p -> nth_error (threshold p conf) i = Some 0%Q)) /\
     (p == 0 -> Forall (fun c => 0 <= c) conf ->
        threshold p conf = repeat 1%Q (List.length conf)) /\
     (p == 1 -> Forall (fun c => c <= 1 /\ ~ c == 1) conf ->
        threshold p conf = repeat 0%Q (List.length conf))) /\
  (forall (logits targets m : Tensor) (per : list Q),
     cls_consistency_kernel logits targets "ce" = Ok per ->
     per <> [] ->
     data m = repeat 0%Q (List.length per) ->
     exists v, cls_consistency_loss logits targets "ce" (Some m) = Ok v /\ v == 0) /\
  (forall (cfg : Config) (b : Batch) (s s' : AlgState) (l : Locals) (conf : list Q),
     p_cutoff cfg == 1 ->
     amp_block cfg b s = (Ok l, s') ->
     max_probs (probs_x_ulb_w l) = Ok conf ->
     Forall (fun c => c <= 1 /\ ~ c == 1) conf ->
     data (mask l) = repeat 0%Q (List.length conf) /\
     cls_unsup_loss l == 0 /\
     total_cls_loss l == cls_sup_loss l).
Proof.
  assert (Hcut : forall (p : Q) (conf : list Q),
            p == 1 -> Forall (fun c => c <= 1 /\ ~ c == 1) conf ->
            threshold p conf = repeat 0%Q (List.length conf)).
  { intros p conf Hp Hc. apply threshold_all_zeros.
    eapply Forall_impl; [|exact Hc]. intros c [Hle Hne]. cbn beta.
    rewrite Hp. apply Qle_lteq in Hle. destruct Hle as [Hlt|Heq]; [exact Hlt | contradiction]. }
  split; [|split].
  - intros p probs conf Hc. repeat split.
    + unfold masking, detach. now rewrite Hc.
    + now apply threshold_nth.
    + now apply threshold_nth.
    + intros Hp Hpos. apply threshold_all_ones.
      eapply Forall_impl; [|exact Hpos]. intros c Hc0. cbn beta. now rewrite Hp.
    + apply Hcut.
  - intros logits targets m per. apply zero_mask_loss_returns.
  - intros cfg b s s' l conf Hp H Hc Hconf.
    pose proof (ru_amp_block_Ok_inv _ _ _ _ _ H) as
      (o_lb & o_w & o_s & la_lb & ya & la_w & la_s & pl & _ & _ & _ & _ & _ & _ & _ &
       _ & _ & _ & Hmk & _ & _ & Hloss & _ & _ & HT & _).
    apply masking_mask in Hmk as (conf' & Hc' & Hm).
    rewrite Hc in Hc'. injection Hc' as <-.
    assert (Hd : data (mask l) = repeat 0%Q (List.length conf)).
    { rewrite Hm. cbn [data]. now apply Hcut. }
    assert (Hz : cls_unsup_loss l == 0).
    { eapply zero_mask_loss; [|exact Hloss].
      rewrite Hd. clear. induction (List.length conf); simpl; constructor; auto. reflexivity. }
    repeat split; [exact Hd | exact Hz |].
    rewrite HT, Hz. ring.
Qed.

(** C9.  In a completed [RankUp.train_step] the warm-up ramp multiplies
    only the regression unsupervised term:
    [total_cls_loss = cls_sup_loss + cls_ulb_loss_ratio * cls_unsup_loss],
    [total_loss = total_reg_loss + cls_loss_ratio * total_cls_loss], and a
    completed step on the same batch at any other iteration counter has
    the same classification losses. *)
Theorem cls_terms_carry_no_warmup (cfg : Config) (b : Batch) (s s' : AlgState)
    (out : OutDict) (log : Dict Q) :
  train_step cfg b s = (Ok (out, log), s') ->
  exists l,
    amp_block cfg b (set_idx_ulb (idx_ulb b) s) = (Ok l, s') /\
    loss out = total_loss l /\
    dict_get "reg_loss" log = Some (total_reg_loss l) /\
    dict_get "cls_loss" log = Some (total_cls_loss l) /\
    warmup_ramp (it s) (reg_unsup_warm_up cfg) (num_train_iter cfg) =
      Ok (reg_unsup_warmup l) /\
    total_reg_loss l =
      (reg_sup_loss l + reg_ulb_loss_ratio cfg * reg_unsup_loss l * reg_unsup_warmup l)%Q /\
    total_cls_loss l = (cls_sup_loss l + cls_ulb_loss_ratio cfg * cls_unsup_loss l)%Q /\
    total_loss l = (total_reg_loss l + cls_loss_ratio cfg * total_cls_loss l)%Q /\
    forall (i : Z) (out2 : OutDict) (log2 : Dict Q) (s2 : AlgState),
      train_step cfg b (set_it i s) = (Ok (out2, log2), s2) ->
      exists l2,
        amp_block cfg b (set_idx_ulb (idx_ulb b) (set_it i s)) = (Ok l2, s2) /\
        cls_sup_loss l2 = cls_sup_loss l /\
        cls_unsup_loss l2 = cls_unsup_loss l /\
        total_cls_loss l2 = total_cls_loss l /\
        dict_get "cls_loss" log2 = Some (total_cls_loss l).
Proof.
  intros H.
  apply ru_train_step_Ok_inv in H as (l & H & -> & ->).
  pose proof (ru_amp_block_Ok_inv _ _ _ _ _ H) as
    (o_lb & o_w & o_s & la_lb & ya & la_w & la_s & pl & H1 & H1a & H1b & H2 & H2a &
     H3 & H3a & Hpr & _ & _ & Hmk & Hpl & Hcs & Hcu & Hw & HR & HC & HT & _).
  exists l.
  split; [exact H|]. do 3 (split; [reflexivity|]).
  split; [destruct s; exact Hw|]. do 3 (split; [assumption|]).
  intros i out2 log2 s2 H'.
  {
    apply ru_train_step_Ok_inv in H' as (l2 & H' & -> & ->).
    pose proof (ru_amp_block_Ok_inv _ _ _ _ _ H') as
      (o_lb' & o_w' & o_s' & la_lb' & ya' & la_w' & la_s' & pl' & G1 & G1a & G1b & G2 &
       G2a & G3 & G3a & Gpr & _ & _ & Gmk & Gpl & Gcs & Gcu & _ & _ & GC & _).
    destruct s as [[p f] e c h idx n t]. cbn in *.
    assert (o_lb' = o_lb) by congruence. subst o_lb'.
    assert (o_w' = o_w) by congruence. subst o_w'.
    assert (o_s' = o_s) by congruence. subst o_s'.
    assert (la_lb' = la_lb) by congruence.
    assert (ya' = ya) by congruence.
    assert (la_w' = la_w) by congruence.
    assert (la_s' = la_s) by congruence. subst.
    assert (Ep : probs_x_ulb_w l2 = probs_x_ulb_w l) by congruence.
    rewrite Ep in *.
    assert (Em : mask l2 = mask l) by congruence.
    assert (pl' = pl) by congruence. subst pl'.
    rewrite Em in *.
    assert (Es : cls_sup_loss l2 = cls_sup_loss l) by congruence.
    assert (Eu : cls_unsup_loss l2 = cls_unsup_loss l) by congruence.
    assert (Et : total_cls_loss l2 = total_cls_loss l) by congruence.
    exists l2. repeat split; try assumption. cbn. now rewrite Et. }
Qed.

End RankUp.

End RankUp.

(** * Properties shared by the train steps *)

Module Steps.
Import Base.
Local Open Scope string_scope.

(** C1.  For [it >= 0], [num_train_iter > 0] and a warm-up fraction [> 0]
    the ramp of a train step is defined and equals
    [clip(it / (fraction * num_train_iter), 0, 1)]; it lies in [0,1], is
    non-decreasing in [it], and is 1 once
    [it >= fraction * num_train_iter].  It is the factor a completed
    [MeanTeacher.train_step] or [RankUp.train_step] used. *)
Theorem warm_up_ramp_spec (it0 N : Z) (w : Q) :
  (0 <= it0)%Z -> (0 < N)%Z -> 0 < w ->
  (exists r,
     warmup_ramp it0 w N = Ok r /\
     r == spec_warm_up it0 w N /\
     0 <= r <= 1 /\
     (forall it1 : Z, (it0 <= it1)%Z ->
        exists r1, warmup_ramp it1 w N = Ok r1 /\ r <= r1) /\
     (w * inject_Z N <= inject_Z it0 -> r == 1)) /\
  (forall net net_feat reg_loss reg_consistency_loss cfg b s l s',
     MeanTeacher.amp_block net net_feat reg_loss reg_consistency_loss cfg b s = (Ok l, s') ->
     it s = it0 -> MeanTeacher.num_train_iter cfg = N ->
     MeanTeacher.reg_unsup_warm_up cfg = w ->
     warmup_ramp it0 w N = Ok (MeanTeacher.unsup_warmup l)) /\
  (forall net_arc compute_prob reg_loss reg_consistency_loss cls_loss kernel rda pl
          cfg b s l s',
     RankUp.amp_block net_arc compute_prob reg_loss reg_consistency_loss cls_loss kernel
       rda pl cfg b s = (Ok l, s') ->
     it s = it0 -> RankUp.num_train_iter cfg = N ->
     RankUp.reg_unsup_warm_up cfg = w ->
     warmup_ramp it0 w N = Ok (RankUp.reg_unsup_warmup l)).
Proof.
  intros Hit HN Hw.
  pose proof (warm_up_span_pos w N Hw HN) as Hd.
  assert (Hnz : ~ w * inject_Z N == 0).
  { intros E. rewrite E in Hd. discriminate. }
  assert (HR : forall i : Z,
            warmup_ramp i w N = Ok (np_clip (inject_Z i / (w * inject_Z N)) 0 1)).
  { intros i. unfold warmup_ramp. now rewrite (py_truediv_nonzero _ _ Hnz). }
  split; [|split].
  - eexists. split; [apply HR|]. split; [|split; [|split]].
    + unfold spec_warm_up. apply np_clip_cases.
    + apply np_clip_bounds.
    + intros it1 Hle. eexists. split; [apply HR|].
      apply np_clip_mono, Qdiv_le_mono; [exact Hd|].
      now rewrite <- Zle_Qle.
    + intros Hge. apply np_clip_above.
      apply Qle_shift_div_l; [exact Hd|]. now rewrite Qmult_1_l.
  - intros net net_feat reg_loss rcl cfg b s l s' H <- <- <-.
    apply MeanTeacher.mt_amp_block_Ok_inv in H
      as (o_lb & o_w & o_w2 & _ & _ & _ & _ & _ & _ & HW & _).
    exact HW.
  - intros net_arc compute_prob reg_loss rcl cls_loss kernel rda pl cfg b s l s' H <- <- <-.
    apply RankUp.ru_amp_block_Ok_inv in H
      as (o_lb & o_w & o_s & la_lb & ya & la_w & la_s & pl0 & _ & _ & _ & _ & _ & _ & _ &
          _ & _ & _ & _ & _ & _ & _ & HW & _).
    exact HW.
Qed.

(** C3, as the code has it.  With a warm-up fraction equal to 0 the ramp
    divides by zero at every iteration counter, 0 included: its
    evaluation raises [ZeroDivisionError] and yields no value, so neither
    [MeanTeacher.train_step] nor [RankUp.train_step] ever completes, and a
    MeanTeacher step whose passes and loss kernels return fails with
    [ZeroDivisionError]. *)
Theorem zero_fraction_ramp_raises :
  (forall (it0 N : Z) (w : Q), w == 0 -> warmup_ramp it0 w N = Raise ZeroDivisionError) /\
  (forall net net_feat reg_loss reg_consistency_loss cfg b s,
     MeanTeacher.reg_unsup_warm_up cfg == 0 ->
     (forall r s',
        MeanTeacher.train_step net net_feat reg_loss reg_consistency_loss cfg b s
        <> (Ok r, s')) /\
     (forall o_lb o_w o_w2 fd sup unsup,
        net (params (model s)) (bn_flags (model s)) (MeanTeacher.x_lb b) = Ok o_lb ->
        net (shadow (ema s)) (frozen (bn_flags (model s))) (MeanTeacher.x_ulb_w b) = Ok o_w ->
        net (params (model s)) (frozen (bn_flags (model s))) (MeanTeacher.x_ulb_w_2 b)
          = Ok o_w2 ->
        fst (extra_feats_run net_feat (params (model s)) (bn_flags (model s))
               (MeanTeacher.kwargs b) (MeanTeacher.feat_dict0 o_lb o_w o_w2)) = Ok fd ->
        reg_loss (logits o_lb) (MeanTeacher.y_lb b) "mean" = Ok sup ->
        reg_consistency_loss (logits o_w2) (logits o_w) "mse" = Ok unsup ->
        fst (MeanTeacher.train_step net net_feat reg_loss reg_consistency_loss cfg b s)
        = Raise ZeroDivisionError)) /\
  (forall net_arc compute_prob reg_loss reg_consistency_loss cls_loss kernel rda pl
          cfg b s r s',
     RankUp.reg_unsup_warm_up cfg == 0 ->
     RankUp.train_step net_arc compute_prob reg_loss reg_consistency_loss cls_loss kernel
       rda pl cfg b s <> (Ok r, s')).
Proof.
  assert (HZ : forall (it0 N : Z) (w : Q),
            w == 0 -> warmup_ramp it0 w N = Raise ZeroDivisionError).
  { intros it0 N w Hw. unfold warmup_ramp. rewrite py_truediv_zero; [reflexivity|].
    rewrite Hw. apply Qmult_0_l. }
  split; [exact HZ|]. split.
  - intros net net_feat reg_loss rcl cfg b s Hw. split.
    + intros [out log] s' H.
      apply MeanTeacher.mt_train_step_Ok_inv in H as (l & H & _).
      apply MeanTeacher.mt_amp_block_Ok_inv in H
        as (o_lb & o_w & o_w2 & _ & _ & _ & _ & _ & _ & HW & _).
      rewrite (HZ _ _ _ Hw) in HW. discriminate.
    + intros o_lb o_w o_w2 fd sup unsup H1 H2 H3 H4 H5 H6.
      destruct (MeanTeacher.mt_ramp_raises net net_feat reg_loss rcl cfg b s
                  o_lb o_w o_w2 fd sup unsup ZeroDivisionError H1 H2 H3 H4 H5 H6
                  (HZ _ _ _ Hw)) as [evs HB].
      unfold MeanTeacher.train_step. now rewrite (bind_Raise _ _ _ _ _ HB).
  - intros net_arc compute_prob reg_loss rcl cls_loss kernel rda pl cfg b s [out log] s' Hw H.
    apply RankUp.ru_train_step_Ok_inv in H as (l & H & _).
    apply RankUp.ru_amp_block_Ok_inv in H
      as (o_lb & o_w & o_s & la_lb & ya & la_w & la_s & pl0 & _ & _ & _ & _ & _ & _ & _ &
          _ & _ & _ & _ & _ & _ & _ & HW & _).
    rewrite (HZ _ _ _ Hw) in HW. discriminate.
Qed.

(** C2, as the code has it.  A failed train step restores nothing on its
    way out.  If the exception comes from a forward pass inside a bracket
    -- MeanTeacher's teacher pass or its second pass, RankUp's weak pass --
    it propagates with the shadow still applied and/or batch-norm still
    frozen; an exception raised anywhere else (labeled pass, feature
    passes, a loss computation, a hook call, the warm-up division) finds
    the live parameters and every batch-norm flag at their pre-step
    values. *)
Theorem failed_step_state :
  (forall net net_feat reg_loss reg_consistency_loss cfg b s,
     (forall e s',
        MeanTeacher.train_step net net_feat reg_loss reg_consistency_loss cfg b s
        = (Raise e, s') ->
        model s' = model s \/
        (net (shadow (ema s)) (frozen (bn_flags (model s))) (MeanTeacher.x_ulb_w b) = Raise e /\
         s' = MeanTeacher.teacher_leak b s) \/
        (net (params (model s)) (frozen (bn_flags (model s))) (MeanTeacher.x_ulb_w_2 b)
           = Raise e /\
         s' = MeanTeacher.student_leak b s)) /\
     (forall o_lb e,
        net (params (model s)) (bn_flags (model s)) (MeanTeacher.x_lb b) = Ok o_lb ->
        net (shadow (ema s)) (frozen (bn_flags (model s))) (MeanTeacher.x_ulb_w b) = Raise e ->
        MeanTeacher.train_step net net_feat reg_loss reg_consistency_loss cfg b s
        = (Raise e, MeanTeacher.teacher_leak b s)) /\
     (forall o_lb o_w e,
        net (params (model s)) (bn_flags (model s)) (MeanTeacher.x_lb b) = Ok o_lb ->
        net (shadow (ema s)) (frozen (bn_flags (model s))) (MeanTeacher.x_ulb_w b) = Ok o_w ->
        net (params (model s)) (frozen (bn_flags (model s))) (MeanTeacher.x_ulb_w_2 b)
          = Raise e ->
        MeanTeacher.train_step net net_feat reg_loss reg_consistency_loss cfg b s
        = (Raise e, MeanTeacher.student_leak b s))) /\
  (forall net_arc compute_prob reg_loss reg_consistency_loss cls_loss kernel rda pl cfg b s,
     (forall e s',
        RankUp.train_step net_arc compute_prob reg_loss reg_consistency_loss cls_loss kernel
          rda pl cfg b s = (Raise e, s') ->
        model s' = model s \/
        ((net_arc None (params (model s)) (frozen (bn_flags (model s))) (RankUp.x_ulb_w b)
            = Raise e \/
          exists o,
            net_arc None (params (model s)) (frozen (bn_flags (model s))) (RankUp.x_ulb_w b)
              = Ok o /\
            logits_arc o = None /\ e = KeyError "logits_arc") /\
         s' = RankUp.frozen_leak b (set_idx_ulb (RankUp.idx_ulb b) s))) /\
     (forall o_lb la_lb ya e,
        net_arc (Some (RankUp.y_lb b)) (params (model s)) (bn_flags (model s)) (RankUp.x_lb b)
          = Ok o_lb ->
        logits_arc o_lb = Some la_lb -> targets_arc o_lb = Some ya ->
        net_arc None (params (model s)) (frozen (bn_flags (model s))) (RankUp.x_ulb_w b)
          = Raise e ->
        RankUp.train_step net_arc compute_prob reg_loss reg_consistency_loss cls_loss kernel
          rda pl cfg b s
        = (Raise e, RankUp.frozen_leak b (set_idx_ulb (RankUp.idx_ulb b) s)))).
Proof.
  split.
  - intros net net_feat reg_loss rcl cfg b s. split; [|split].
    + intros e s' H.
      apply MeanTeacher.mt_train_step_Raise_inv in H.
      apply MeanTeacher.mt_amp_block_Raise_inv in H as [H|[H|[H|[evs H]]]].
      * left. now apply same_object_fields in H.
      * right; left. exact H.
      * right; right. exact H.
      * left. now rewrite H.
    + intros o_lb e H1 H2. unfold MeanTeacher.train_step.
      now rewrite (bind_Raise _ _ _ _ _ (MeanTeacher.mt_teacher_pass_raises _ _ _ _ _ _ _ _ _ H1 H2)).
    + intros o_lb o_w e H1 H2 H3. unfold MeanTeacher.train_step.
      now rewrite (bind_Raise _ _ _ _ _
                     (MeanTeacher.mt_student_pass_raises _ _ _ _ _ _ _ _ _ _ H1 H2 H3)).
  - intros net_arc compute_prob reg_loss rcl cls_loss kernel rda pl cfg b s. split.
    + intros e s' H.
      apply RankUp.ru_train_step_Raise_inv in H.
      apply RankUp.ru_amp_block_Raise_inv in H.
      destruct s as [m em c h idx i t]. exact H.
    + intros o_lb la_lb ya e H1 H1a H1b H2.
      unfold RankUp.train_step.
      rewrite (bind_Ok _ _ s (set_idx_ulb (RankUp.idx_ulb b) s) tt) by reflexivity.
      erewrite bind_Raise; [reflexivity|].
      apply RankUp.ru_weak_pass_raises with (o_lb := o_lb) (la_lb := la_lb) (ya := ya);
        destruct s; assumption.
Qed.

End Steps.

(** * A concrete run of each step *)

Module Scenario.
Import Base.
Local Open Scope string_scope.
Local Open Scope list_scope.

Definition vec (l : list Q) : Tensor := mkTensor [List.length l] l.

(** A one-weight network: the logits are the input scaled by the first
    parameter; an input holding 13 makes the pass raise. *)
Definition weight (p : Params) : Q :=
  match p with
  | (_, t) :: _ => hd 0 (data t)
  | [] => 0
  end.

Definition poisoned (x : Tensor) : bool := existsb (Qeq_bool 13) (data x).

Definition toy_net (p : Params) (flags : list bool) (x : Tensor) : Result ModelOutput :=
  if poisoned x then Raise (External "forward")
  else Ok (mkOut (mkTensor (shape x) (map (Qmult (weight p)) (data x))) x None None).

Definition toy_net_feat (p : Params) (flags : list bool) (x : Tensor) : Result Tensor :=
  if poisoned x then Raise (External "forward") else Ok x.

Fixpoint sq_err (a b : list Q) : Q :=
  match a, b with
  | x :: a', y :: b' => (x - y) * (x - y) + sq_err a' b'
  | _, _ => 0
  end.

Definition toy_loss (lg y : Tensor) (name : string) : Result Q :=
  Ok (Qred (sq_err (data lg) (data y))).

Definition toy_state (i : Z) (hooks : Dict Hook) : AlgState :=
  mkAlg (mkModel [("w", vec [2])] [true; false])
        (mkEMA [("w", vec [3])] None)
        (mkBN None) hooks [] i [].

(** ** MeanTeacher *)

Definition mt_cfg : MeanTeacher.Config := MeanTeacher.mkConfig (2 # 5) 1 100.
Definition mt_cfg0 : MeanTeacher.Config := MeanTeacher.mkConfig 0 1 100.

Definition mt_batch : MeanTeacher.Batch :=
  MeanTeacher.mkBatch (vec [1]) (vec [3]) (vec [2]) (vec [4]) [("x_extra", vec [7])].

Definition mt_bad_batch : MeanTeacher.Batch :=
  MeanTeacher.mkBatch (vec [1]) (vec [3]) (vec [13]) (vec [4]) [].

Definition mt_step := MeanTeacher.train_step toy_net toy_net_feat toy_loss toy_loss.

(** ** CLSS *)

Definition clss_cfg : CLSS.Config := CLSS.mkConfig 2 1 (1 # 20) (1 # 100).

Definition clss_batch : CLSS.Batch :=
  CLSS.mkBatch (vec [1]) (vec [3]) (vec [2]) [].

Definition toy_ordinal_entropy (f y : Tensor) : Result Q := Ok 2.
Definition toy_ulb_rank (f : Tensor) (lam : Q) : Result (Q * Tensor) := Ok (lam, f).
Definition toy_ulb_rank_prdlb (lg : Tensor) (lam : Q) (pred : Tensor) : Result Q := Ok 10.

Definition clss_step :=
  CLSS.train_step toy_net toy_net_feat toy_loss
    toy_ordinal_entropy toy_ulb_rank toy_ulb_rank_prdlb.

(** ** RankUp *)

(** The auxiliary head gives each sample [c] of the input the row
    [1 - c; c]; the targets are passed through. *)
Definition toy_net_arc (targets : option Tensor) (p : Params) (flags : list bool)
    (x : Tensor) : Result ModelOutput :=
  if poisoned x then Raise (External "forward")
  else Ok (mkOut (mkTensor [List.length (data x); 1%nat] (map (Qmult (weight p)) (data x)))
             x
             (Some (mkTensor [List.length (data x); 2%nat]
                      (flat_map (fun c => [1 - c; c]) (data x))))
             targets).

Definition toy_compute_prob (t : Tensor) : Tensor := t.

Definition toy_kernel (lg tg : Tensor) (name : string) : Result (list Q) :=
  Ok (map (fun r => 1 + RankUp.row_max r)
        (RankUp.chunk (hd 0%nat (shape lg)) 2 (data lg))).

Definition toy_rda (st : RDAState) (m : Model) (idx : list Z) (lg : Tensor)
    : Result Tensor * RDAState :=
  (Ok lg, mkRDA (rda_buffer st) (rda_lb_targets st) (rda_num_refine_iter st)
            (rda_calls st + 1)).

Definition toy_pl (lg : Tensor) (hard : bool) (temp : Q) (softmax : bool) : Result Tensor :=
  Ok lg.

Definition toy_statistic (l : list Q) : Q := hd 0 l.

Definition ru_cfg (rda : bool) (w p : Q) : RankUp.Config :=
  RankUp.mkConfig rda w 1024 1 1 (1 # 2) p true 1 100.

Definition ru_hooks (cfg : RankUp.Config) : Dict Hook :=
  RankUp.set_hooks toy_statistic cfg 4 [1; 2] [("ParamUpdateHook", OtherHook)].

(** Four labeled and four unlabeled samples; the weak view's confidences
    are 3/4, 3/5, 9/10 and 1/2. *)
Definition ru_batch : RankUp.Batch :=
  RankUp.mkBatch (vec [1; 2; 3; 4]) (vec [2; 4; 6; 9]) [0; 1; 2; 3]%Z
    (vec [3 # 4; 3 # 5; 9 # 10; 1 # 2]) (vec [1 # 4; 4 # 5; 1 # 2; 2 # 3]).

Definition ru_bad_batch : RankUp.Batch :=
  RankUp.mkBatch (vec [1; 2; 3; 4]) (vec [2; 4; 6; 9]) [0; 1; 2; 3]%Z
    (vec [3 # 4; 13; 9 # 10; 1 # 2]) (vec [1 # 4; 4 # 5; 1 # 2; 2 # 3]).

Definition ru_step :=
  RankUp.train_step toy_net_arc toy_compute_prob toy_loss toy_loss toy_loss toy_kernel
    toy_rda toy_pl.

Definition ru_block :=
  RankUp.amp_block toy_net_arc toy_compute_prob toy_loss toy_loss toy_loss toy_kernel
    toy_rda toy_pl.

(** ** The claims on the concrete runs *)

(** At iteration 20 of 100 with fraction 2/5 the ramp is 1/2. *)
Lemma warm_up_ramp_witness :
  exists r, warmup_ramp 20 (2 # 5) 100 = Ok r /\ r == 1 # 2 /\ 0 <= r <= 1.
Proof.
  destruct (Steps.warm_up_ramp_spec 20 100 (2 # 5)) as [(r & Hr & Hs & Hb & _) _];
    [lia | lia | reflexivity |].
  exists r. split; [exact Hr|]. split; [|exact Hb].
  rewrite Hs. vm_compute. reflexivity.
Defined.

(** The teacher pass of MeanTeacher raises: the exception reaches the
    caller with the shadow applied and batch-norm frozen.  The weak pass
    of RankUp raises: batch-norm stays frozen. *)
Lemma failed_bracketed_pass_leaks :
  (exists e s',
     mt_step mt_cfg mt_bad_batch (toy_state 20 []) = (Raise e, s') /\
     params (model s') = shadow (ema (toy_state 20 [])) /\
     params (model s') <> params (model (toy_state 20 [])) /\
     bn_flags (model s') <> bn_flags (model (toy_state 20 [])) /\
     ema_backup (ema s') = Some (params (model (toy_state 20 [])))) /\
  (exists e s',
     ru_step (ru_cfg false (2 # 5) 1) ru_bad_batch
       (toy_state 20 (ru_hooks (ru_cfg false (2 # 5) 1))) = (Raise e, s') /\
     bn_flags (model s') <> bn_flags (model (toy_state 20 []))).
Proof.
  split.
  - eexists _, _. split; [vm_compute; reflexivity|].
    cbn. repeat split; try reflexivity; discriminate.
  - eexists _, _. split; [vm_compute; reflexivity|].
    cbn. discriminate.
Qed.

Lemma failed_step_state_witness :
  mt_step mt_cfg mt_bad_batch (toy_state 20 [])
  = (Raise (External "forward"), MeanTeacher.teacher_leak mt_bad_batch (toy_state 20 [])).
Proof.
  destruct Steps.failed_step_state as [H _].
  destruct (H toy_net toy_net_feat toy_loss toy_loss mt_cfg mt_bad_batch (toy_state 20 []))
    as (_ & H2 & _).
  eapply H2; reflexivity.
Defined.

(** With fraction 0 the ramp has no value, at iteration 0 as at any
    other, and the step fails on the division. *)
Lemma zero_fraction_ramp_not_one :
  warmup_ramp 0 0 100 = Raise ZeroDivisionError /\
  warmup_ramp 7 0 100 = Raise ZeroDivisionError /\
  ~ (exists r, warmup_ramp 0 0 100 = Ok r /\ r == 1) /\
  fst (mt_step mt_cfg0 mt_batch (toy_state 0 [])) = Raise ZeroDivisionError.
Proof.
  repeat split; try (vm_compute; reflexivity).
  intros (r & H & _). vm_compute in H. discriminate.
Qed.

Lemma zero_fraction_ramp_raises_witness :
  fst (mt_step mt_cfg0 mt_batch (toy_state 7 [])) = Raise ZeroDivisionError.
Proof.
  destruct Steps.zero_fraction_ramp_raises as (_ & H & _).
  destruct (H toy_net toy_net_feat toy_loss toy_loss mt_cfg0 mt_batch (toy_state 7 []))
    as [_ H2]; [reflexivity|].
  eapply H2; reflexivity.
Defined.

Lemma rda_disabled_witness :
  exists l s',
    ru_block (ru_cfg false (2 # 5) 1) ru_batch
      (set_idx_ulb (RankUp.idx_ulb ru_batch)
         (toy_state 20 (ru_hooks (ru_cfg false (2 # 5) 1)))) = (Ok l, s') /\
    RankUp.total_reg_loss l == RankUp.reg_sup_loss l /\
    RankUp.reg_sup_loss l == 1.
Proof.
  destruct (RankUp.rda_disabled_contributes_zero
              toy_net_arc toy_compute_prob toy_loss toy_loss toy_loss toy_kernel
              toy_rda toy_pl (ru_cfg false (2 # 5) 1) ru_batch
              (toy_state 20 (ru_hooks (ru_cfg false (2 # 5) 1))) eq_refl) as [H _].
  edestruct H as (l & o_lb & Hb & _ & _ & _ & _ & Ht & _); [vm_compute; reflexivity|].
  exists l. eexists. split; [exact Hb|]. split; [exact Ht|].
  pose proof Hb as Hv. vm_compute in Hv. injection Hv as <-.
  vm_compute. reflexivity.
Defined.

Lemma teacher_pass_bracketed_witness :
  exists s',
    snd (mt_step mt_cfg mt_batch (toy_state 20 [])) = s' /\
    params (model s') = [("w", vec [2])] /\
    bn_flags (model s') = [true; false].
Proof.
  edestruct (MeanTeacher.teacher_pass_bracketed toy_net toy_net_feat toy_loss toy_loss
               mt_cfg mt_batch (toy_state 20 []))
    as (o_w & evs & _ & _ & Hp & Hf & _); [vm_compute; reflexivity|].
  eexists. split; [reflexivity|]. split; [exact Hp | exact Hf].
Defined.

(** sup_loss = 1, unsup_loss = 4, ramp = 1/2: the total loss is 3. *)
Lemma meanteacher_total_loss_witness :
  exists out log s',
    mt_step mt_cfg mt_batch (toy_state 20 []) = (Ok (out, log), s') /\
    loss out == 3.
Proof.
  edestruct (MeanTeacher.meanteacher_total_loss toy_net toy_net_feat toy_loss toy_loss
               mt_cfg mt_batch (toy_state 20 []))
    as (out & log & s' & H & Hl & _);
    [reflexivity | reflexivity | reflexivity | reflexivity | reflexivity | reflexivity
     | vm_compute; discriminate |].
  exists out, log, s'. split; [exact H|].
  rewrite Hl. vm_compute. reflexivity.
Defined.

(** 1 + 1*2 + (1/20)*2 + (1/100)*10 = 16/5. *)
Lemma clss_total_loss_witness :
  exists out log,
    fst (clss_step clss_cfg clss_batch (toy_state 20 [])) = Ok (out, log) /\
    fst (clss_step clss_cfg clss_batch (toy_state 99 [])) = Ok (out, log) /\
    loss out == 16 # 5.
Proof.
  edestruct (CLSS.clss_total_loss toy_net toy_net_feat toy_loss
               toy_ordinal_entropy toy_ulb_rank toy_ulb_rank_prdlb
               clss_cfg clss_batch (toy_state 20 []))
    as (out & log & Hi & H & Hl & _);
    [reflexivity | reflexivity | reflexivity | reflexivity | reflexivity | reflexivity
     | reflexivity | reflexivity |].
  exists out, log. split; [exact H|]. split; [exact (Hi 99%Z)|].
  rewrite Hl. vm_compute. reflexivity.
Defined.

(** Confidences 3/4, 3/5, 9/10, 1/2: cutoff 0 keeps all four samples,
    cutoff 1 none, and the masked loss of the run is then 0. *)
Lemma masking_cutoff_witness :
  RankUp.threshold 0 [3 # 4; 3 # 5; 9 # 10; 1 # 2] = [1; 1; 1; 1] /\
  exists l s',
    ru_block (ru_cfg false (2 # 5) 1) ru_batch
      (toy_state 20 (ru_hooks (ru_cfg false (2 # 5) 1))) = (Ok l, s') /\
    data (RankUp.mask l) = [0; 0; 0; 0] /\
    RankUp.cls_unsup_loss l == 0.
Proof.
  destruct (RankUp.masking_cutoff toy_net_arc toy_compute_prob toy_loss toy_loss toy_loss
              toy_kernel toy_rda toy_pl) as (H1 & _ & H3).
  split.
  - destruct (H1 0 (mkTensor [4%nat; 2%nat]
                      [1 # 4; 3 # 4; 2 # 5; 3 # 5; 1 # 10; 9 # 10; 1 # 2; 1 # 2])
                   [3 # 4; 3 # 5; 9 # 10; 1 # 2] eq_refl) as (_ & _ & H0 & _).
    apply H0; [reflexivity|].
    repeat constructor; discriminate.
  - eexists _, _. split; [vm_compute; reflexivity|].
    edestruct (H3 (ru_cfg false (2 # 5) 1) ru_batch
                 (toy_state 20 (ru_hooks (ru_cfg false (2 # 5) 1))))
      as (Hd & Hz & _); [reflexivity | vm_compute; reflexivity | vm_compute; reflexivity | |].
    + repeat constructor; try discriminate; intros E; vm_compute in E; discriminate.
    + split; [exact Hd | exact Hz].
Defined.

Lemma cls_terms_carry_no_warmup_witness :
  exists l s',
    ru_block (ru_cfg true (2 # 5) (7 # 10)) ru_batch
      (set_idx_ulb (RankUp.idx_ulb ru_batch)
         (toy_state 20 (ru_hooks (ru_cfg true (2 # 5) (7 # 10))))) = (Ok l, s') /\
    warmup_ramp 20 (2 # 5) 100 = Ok (RankUp.reg_unsup_warmup l) /\
    forall out2 log2 s2,
      RankUp.train_step toy_net_arc toy_compute_prob toy_loss toy_loss toy_loss toy_kernel
        toy_rda toy_pl (ru_cfg true (2 # 5) (7 # 10)) ru_batch
        (set_it 40 (toy_state 20 (ru_hooks (ru_cfg true (2 # 5) (7 # 10)))))
      = (Ok (out2, log2), s2) ->
      dict_get "cls_loss" log2 = Some (RankUp.total_cls_loss l).
Proof.
  edestruct (RankUp.cls_terms_carry_no_warmup toy_net_arc toy_compute_prob toy_loss toy_loss
               toy_loss toy_kernel toy_rda toy_pl (ru_cfg true (2 # 5) (7 # 10)) ru_batch
               (toy_state 20 (ru_hooks (ru_cfg true (2 # 5) (7 # 10)))))
    as (l & Hb & _ & _ & _ & Hw & _ & _ & _ & Hi); [vm_compute; reflexivity|].
  exists l. eexists. split; [exact Hb|]. split; [exact Hw|].
  intros out2 log2 s2 H2.
  destruct (Hi 40%Z out2 log2 s2 H2) as (l2 & _ & _ & _ & _ & Hc). exact Hc.
Defined.

End Scenario.

(** * Further properties of the three steps *)

Module Coverage.
Import Base Scenario.
Local Open Scope string_scope.
Local Open Scope list_scope.
Local Open Scope Q_scope.

(** ** The ramp at its edges *)

(** X1.  The ramp of [meanteacher.py:69] and [rankup.py:155] fails exactly
    when [reg_unsup_warm_up * num_train_iter] is zero -- a zero
    [num_train_iter] as much as a zero fraction -- and then with
    [ZeroDivisionError]; otherwise it has a value, in [0,1], whatever the
    signs of the counter and of the fraction. *)
Theorem ramp_raises_iff_zero_span (i N : Z) (w : Q) :
  (warmup_ramp i w N = Raise ZeroDivisionError <-> w * inject_Z N == 0) /\
  warmup_ramp i w 0 = Raise ZeroDivisionError /\
  (forall e, warmup_ramp i w N = Raise e -> e = ZeroDivisionError) /\
  (forall r, warmup_ramp i w N = Ok r -> ~ w * inject_Z N == 0 /\ 0 <= r <= 1).
Proof.
  unfold warmup_ramp, py_truediv.
  split; [|split; [|split]].
  - destruct (Qeq_bool (w * inject_Z N) 0) eqn:E.
    + apply Qeq_bool_iff in E. tauto.
    + apply Qeq_bool_neq in E. split; [discriminate | contradiction].
  - replace (Qeq_bool (w * inject_Z 0) 0) with true; [reflexivity|].
    symmetry. apply Qeq_bool_iff. apply Qmult_0_r.
  - intros e. destruct (Qeq_bool (w * inject_Z N) 0); intros H; [|discriminate].
    now injection H as <-.
  - intros r. destruct (Qeq_bool (w * inject_Z N) 0) eqn:E; intros H; [discriminate|].
    injection H as <-. split; [now apply Qeq_bool_neq | apply np_clip_bounds].
Qed.

(** X2.  Where the ramp has a value: it is 0 at iteration 0; with a
    negative span (a negative fraction) it is 0 at every iteration
    [>= 0]; with a positive span it is 0 only for [it <= 0], and equals
    [it / span] as long as [0 <= it <= span]. *)
Theorem ramp_values (i N : Z) (w r : Q) :
  warmup_ramp i w N = Ok r ->
  (i = 0%Z -> r == 0) /\
  (w * inject_Z N < 0 -> (0 <= i)%Z -> r == 0) /\
  (0 < w * inject_Z N -> (r == 0 <-> (i <= 0)%Z)) /\
  (0 < w * inject_Z N -> (0 <= i)%Z -> inject_Z i <= w * inject_Z N ->
   r == inject_Z i / (w * inject_Z N)).
Proof.
  intros H. unfold warmup_ramp, py_truediv in H.
  destruct (Qeq_bool (w * inject_Z N) 0) eqn:E; [discriminate|].
  injection H as <-. set (d := w * inject_Z N) in *.
  assert (Hi0 : forall j : Z, (0 <= j)%Z -> 0 <= inject_Z j).
  { intros j Hj. replace 0 with (inject_Z 0) by reflexivity. now rewrite <- Zle_Qle. }
  split; [|split; [|split]].
  - intros ->. apply np_clip_below. unfold Qdiv. rewrite Qmult_0_l. apply Qle_refl.
  - intros Hd Hi. apply np_clip_below.
    assert (Hnz : ~ d == 0) by (intros Ed; rewrite Ed in Hd; discriminate).
    assert (Hneg : 0 < - d) by lra.
    assert (Hq : 0 <= inject_Z i / - d).
    { apply Qle_shift_div_l; [exact Hneg|]. rewrite Qmult_0_l. now apply Hi0. }
    setoid_replace (inject_Z i / d) with (- (inject_Z i / - d)) by (field; lra).
    lra.
  - intros Hd. split.
    + intros Hr. apply Z.le_ngt. intros Hpos.
      assert (Hq : 0 < inject_Z i / d).
      { apply Qlt_shift_div_l; [exact Hd|]. rewrite Qmult_0_l.
        replace 0 with (inject_Z 0) by reflexivity. now rewrite <- Zlt_Qlt. }
      assert (Hc : 0 < np_clip (inject_Z i / d) 0 1).
      { unfold np_clip. apply Q.min_glb_lt; [|reflexivity].
        apply Qlt_le_trans with (inject_Z i / d); [exact Hq | apply Q.le_max_l]. }
      rewrite Hr in Hc. discriminate.
    + intros Hi. apply np_clip_below.
      apply Qle_shift_div_r; [exact Hd|]. rewrite Qmult_0_l.
      replace 0 with (inject_Z 0) by reflexivity. now rewrite <- Zle_Qle.
  - intros Hd Hi Hle. apply np_clip_inside. split.
    + apply Qle_shift_div_l; [exact Hd|]. rewrite Qmult_0_l. now apply Hi0.
    + apply Qle_shift_div_r; [exact Hd|]. now rewrite Qmult_1_l.
Qed.

(** At iteration 30 of 100 with fraction 2/5 the ramp is 3/4. *)
Lemma ramp_values_witness :
  exists r, warmup_ramp 30 (2 # 5) 100 = Ok r /\ r == 3 # 4.
Proof.
  eexists. split; [reflexivity|].
  destruct (ramp_values 30 100 (2 # 5) _ eq_refl) as (_ & _ & _ & H).
  rewrite H; [reflexivity | reflexivity | discriminate | discriminate].
Defined.

(** ** The feature passes over the extra keyword arguments *)

Section Feats.

Variable net_feat : Params -> list bool -> Tensor -> Result Tensor.

Definition feat_event (p : Params) (flags : list bool) (kx : string * Tensor) : Event :=
  EvForward (snd kx) p flags.

Lemma feats_run_events (p : Params) (flags : list bool) (kw : Dict Tensor) :
  forall fd fd',
    fst (extra_feats_run net_feat p flags kw fd) = Ok fd' ->
    snd (extra_feats_run net_feat p flags kw fd) = map (feat_event p flags) kw.
Proof.
  induction kw as [|[k x] rest IH]; intros fd fd' H; simpl in *; [reflexivity|].
  destruct (net_feat p flags x) as [f|e]; [|discriminate].
  specialize (IH (dict_set k f fd) fd').
  destruct (extra_feats_run net_feat p flags rest (dict_set k f fd)) as [r evs].
  simpl in *. now rewrite IH.
Qed.

Lemma feats_run_lookup (p : Params) (flags : list bool) (kw : Dict Tensor) :
  NoDup (map fst kw) ->
  forall fd fd',
    fst (extra_feats_run net_feat p flags kw fd) = Ok fd' ->
    (forall k x, In (k, x) kw ->
       exists f, net_feat p flags x = Ok f /\ dict_get k fd' = Some f) /\
    (forall k, ~ In k (map fst kw) -> dict_get k fd' = dict_get k fd).
Proof.
  induction kw as [|[k0 x0] rest IH]; intros Hnd fd fd' H; simpl in *.
  - injection H as <-. split; [contradiction | reflexivity].
  - inversion Hnd as [|? ? Hnotin Hnd']; subst.
    destruct (net_feat p flags x0) as [f0|e] eqn:E0; [|discriminate].
    specialize (IH Hnd' (dict_set k0 f0 fd) fd').
    destruct (extra_feats_run net_feat p flags rest (dict_set k0 f0 fd)) as [r evs].
    simpl in *. destruct (IH H) as [IHin IHout]. split.
    + intros k x [Heq|Hin].
      * injection Heq as <- <-. exists f0. split; [exact E0|].
        rewrite (IHout k0 Hnotin). apply dict_get_set_same.
      * now apply IHin.
    + intros k Hk.
      rewrite IHout by tauto.
      apply dict_get_set_other. intros ->. tauto.
Qed.

Lemma feats_run_failure (p : Params) (flags : list bool)
    (pre post : Dict Tensor) (k : string) (x : Tensor) (e : Exn) :
  (forall k' x', In (k', x') pre -> exists f, net_feat p flags x' = Ok f) ->
  net_feat p flags x = Raise e ->
  forall fd,
    extra_feats_run net_feat p flags (pre ++ (k, x) :: post) fd =
    (Raise e, map (feat_event p flags) (pre ++ [(k, x)])).
Proof.
  intros Hpre Hx. induction pre as [|[k0 x0] pre IH]; intros fd; simpl.
  - now rewrite Hx.
  - destruct (Hpre k0 x0 (or_introl eq_refl)) as [f0 E0]. rewrite E0.
    rewrite IH; [reflexivity|].
    intros k' x' Hin. apply (Hpre k' x'). now right.
Qed.

End Feats.

(** ** MeanTeacher *)

Section MeanTeacherMore.

Variable net : Params -> list bool -> Tensor -> Result ModelOutput.
Variable net_feat : Params -> list bool -> Tensor -> Result Tensor.
Variable reg_loss : Tensor -> Tensor -> string -> Result Q.
Variable reg_consistency_loss : Tensor -> Tensor -> string -> Result Q.

Local Notation "'mt_train_step'" :=
  (MeanTeacher.train_step net net_feat reg_loss reg_consistency_loss).
Local Notation "'mt_amp_block'" :=
  (MeanTeacher.amp_block net net_feat reg_loss reg_consistency_loss).

Ltac mt_run := try unfold MeanTeacher.amp_block in *; run_base.

(** X3.  When its passes and loss kernels return, with a positive
    fraction and [num_train_iter], [MeanTeacher.train_step] returns the
    supervised loss alone at iteration 0 -- the consistency term is
    switched off whatever its size and ratio -- and
    [sup_loss + reg_ulb_loss_ratio * unsup_loss] once
    [it >= reg_unsup_warm_up * num_train_iter]. *)
Theorem meanteacher_loss_at_ramp_ends (cfg : MeanTeacher.Config) (b : MeanTeacher.Batch)
    (s : AlgState) (o_lb o_w o_w2 : ModelOutput) (fd : Dict Tensor) (sup unsup : Q) :
  net (params (model s)) (bn_flags (model s)) (MeanTeacher.x_lb b) = Ok o_lb ->
  net (shadow (ema s)) (frozen (bn_flags (model s))) (MeanTeacher.x_ulb_w b) = Ok o_w ->
  net (params (model s)) (frozen (bn_flags (model s))) (MeanTeacher.x_ulb_w_2 b) = Ok o_w2 ->
  fst (extra_feats_run net_feat (params (model s)) (bn_flags (model s))
         (MeanTeacher.kwargs b) (MeanTeacher.feat_dict0 o_lb o_w o_w2)) = Ok fd ->
  reg_loss (logits o_lb) (MeanTeacher.y_lb b) "mean" = Ok sup ->
  reg_consistency_loss (logits o_w2) (logits o_w) "mse" = Ok unsup ->
  0 < MeanTeacher.reg_unsup_warm_up cfg ->
  (0 < MeanTeacher.num_train_iter cfg)%Z ->
  exists out log s',
    mt_train_step cfg b s = (Ok (out, log), s') /\
    (it s = 0%Z -> loss out == sup) /\
    (MeanTeacher.reg_unsup_warm_up cfg * inject_Z (MeanTeacher.num_train_iter cfg)
       <= inject_Z (it s) ->
     loss out == sup + MeanTeacher.reg_ulb_loss_ratio cfg * unsup).
Proof.
  intros H1 H2 H3 H4 H5 H6 Hw HN.
  pose proof (warm_up_span_pos _ _ Hw HN) as Hd.
  assert (Hnz : ~ MeanTeacher.reg_unsup_warm_up cfg
                  * inject_Z (MeanTeacher.num_train_iter cfg) == 0).
  { intros E. rewrite E in Hd. discriminate. }
  assert (HW : warmup_ramp (it s) (MeanTeacher.reg_unsup_warm_up cfg)
                 (MeanTeacher.num_train_iter cfg) =
               Ok (np_clip (inject_Z (it s) /
                      (MeanTeacher.reg_unsup_warm_up cfg
                       * inject_Z (MeanTeacher.num_train_iter cfg))) 0 1)).
  { unfold warmup_ramp. now rewrite (py_truediv_nonzero _ _ Hnz). }
  pose proof (MeanTeacher.mt_amp_block_returns net net_feat reg_loss reg_consistency_loss
                cfg b s o_lb o_w o_w2 fd sup unsup _ H1 H2 H3 H4 H5 H6 HW) as HB.
  eexists _, _, _. split.
  - unfold MeanTeacher.train_step. rewrite (bind_Ok _ _ _ _ _ HB). reflexivity.
  - cbn [loss process_out_dict MeanTeacher.total_loss]. split.
    + intros E0. rewrite E0, np_clip_below; [ring|].
      unfold Qdiv. rewrite Qmult_0_l. apply Qle_refl.
    + intros Hge. rewrite np_clip_above; [ring|].
      apply Qle_shift_div_l; [exact Hd|]. now rewrite Qmult_1_l.
Qed.

(** X4.  The calls of a completed [MeanTeacher.train_step], in order: the
    labeled pass; the teacher pass on [x_ulb_w] under shadow parameters
    and frozen flags inside [apply_shadow; freeze_bn; ...; unfreeze_bn;
    restore]; the pass on [x_ulb_w_2] under the live parameters with
    batch-norm frozen inside [freeze_bn; ...; unfreeze_bn]; then one
    feature pass per extra keyword argument, in their order, under the
    live parameters and the unfrozen flags.  Nothing else is called. *)
Theorem meanteacher_completed_trace (cfg : MeanTeacher.Config) (b : MeanTeacher.Batch)
    (s s' : AlgState) (r : OutDict * Dict Q) :
  mt_train_step cfg b s = (Ok r, s') ->
  trace s' =
    trace s ++
    [EvForward (MeanTeacher.x_lb b) (params (model s)) (bn_flags (model s));
     EvApplyShadow; EvFreezeBN;
     EvForward (MeanTeacher.x_ulb_w b) (shadow (ema s)) (frozen (bn_flags (model s)));
     EvUnfreezeBN; EvRestore;
     EvFreezeBN;
     EvForward (MeanTeacher.x_ulb_w_2 b) (params (model s)) (frozen (bn_flags (model s)));
     EvUnfreezeBN] ++
    map (fun kx => EvForward (snd kx) (params (model s)) (bn_flags (model s)))
      (MeanTeacher.kwargs b).
Proof.
  destruct r as [out log]. intros H.
  apply MeanTeacher.mt_train_step_Ok_inv in H as (l & H & _).
  apply MeanTeacher.mt_amp_block_Ok_inv in H
    as (o_lb & o_w & o_w2 & _ & _ & _ & Hf & _ & _ & _ & _ & ->).
  rewrite (feats_run_events _ _ _ _ _ _ Hf).
  reflexivity.
Qed.

(** X5.  The feature mapping a completed [MeanTeacher.train_step] returns
    (lines 62-64): every extra keyword argument maps to the feature-only
    pass of its input under the live model, and a base key that no
    keyword argument carries maps to the features of its pass --
    ["x_ulb_w"] to those of the teacher pass. *)
Theorem meanteacher_feat_dict (cfg : MeanTeacher.Config) (b : MeanTeacher.Batch)
    (s s' : AlgState) (out : OutDict) (log : Dict Q) :
  mt_train_step cfg b s = (Ok (out, log), s') ->
  NoDup (map fst (MeanTeacher.kwargs b)) ->
  exists o_lb o_w o_w2,
    net (params (model s)) (bn_flags (model s)) (MeanTeacher.x_lb b) = Ok o_lb /\
    net (shadow (ema s)) (frozen (bn_flags (model s))) (MeanTeacher.x_ulb_w b) = Ok o_w /\
    net (params (model s)) (frozen (bn_flags (model s))) (MeanTeacher.x_ulb_w_2 b) = Ok o_w2 /\
    (forall k x, In (k, x) (MeanTeacher.kwargs b) ->
       exists f,
         net_feat (params (model s)) (bn_flags (model s)) x = Ok f /\
         dict_get k (out_feat out) = Some f) /\
    (~ In "x_lb" (map fst (MeanTeacher.kwargs b)) ->
       dict_get "x_lb" (out_feat out) = Some (feat o_lb)) /\
    (~ In "x_ulb_w" (map fst (MeanTeacher.kwargs b)) ->
       dict_get "x_ulb_w" (out_feat out) = Some (feat o_w)) /\
    (~ In "x_ulb_w_2" (map fst (MeanTeacher.kwargs b)) ->
       dict_get "x_ulb_w_2" (out_feat out) = Some (feat o_w2)) /\
    (forall k, ~ In k (map fst (MeanTeacher.kwargs b)) ->
       k <> "x_lb" -> k <> "x_ulb_w" -> k <> "x_ulb_w_2" ->
       dict_get k (out_feat out) = None).
Proof.
  intros H Hnd.
  apply MeanTeacher.mt_train_step_Ok_inv in H as (l & H & -> & _).
  apply MeanTeacher.mt_amp_block_Ok_inv in H
    as (o_lb & o_w & o_w2 & H1 & H2 & H3 & Hf & _).
  destruct (feats_run_lookup _ _ _ _ Hnd _ _ Hf) as [Hin Hout].
  exists o_lb, o_w, o_w2. cbn [out_feat].
  repeat split; try assumption.
  - intros Hk. now rewrite (Hout _ Hk).
  - intros Hk. now rewrite (Hout _ Hk).
  - intros Hk. now rewrite (Hout _ Hk).
  - intros k Hk N1 N2 N3. rewrite (Hout _ Hk). cbn.
    apply String.eqb_neq in N1, N2, N3. now rewrite N1, N2, N3.
Qed.

(** X6.  What no outcome of [MeanTeacher.train_step] changes: the hook
    registry, the stored unlabeled indices, the iteration counter and the
    EMA shadow values; and the live parameters are, at every exit, either
    the pre-step parameters or the shadow copy. *)
Theorem meanteacher_step_frame (cfg : MeanTeacher.Config) (b : MeanTeacher.Batch)
    (s : AlgState) :
  hooks_dict (snd (mt_train_step cfg b s)) = hooks_dict s /\
  self_idx_ulb (snd (mt_train_step cfg b s)) = self_idx_ulb s /\
  it (snd (mt_train_step cfg b s)) = it s /\
  shadow (ema (snd (mt_train_step cfg b s))) = shadow (ema s) /\
  (params (model (snd (mt_train_step cfg b s))) = params (model s) \/
   params (model (snd (mt_train_step cfg b s))) = shadow (ema s)).
Proof.
  destruct (mt_train_step cfg b s) as [[[out log]|e] s'] eqn:H; cbn [snd].
  - apply MeanTeacher.mt_train_step_Ok_inv in H as (l & H & _).
    apply MeanTeacher.mt_amp_block_Ok_inv in H
      as (o_lb & o_w & o_w2 & _ & _ & _ & _ & _ & _ & _ & _ & ->).
    cbn. repeat split. now left.
  - apply MeanTeacher.mt_train_step_Raise_inv in H.
    apply MeanTeacher.mt_amp_block_Raise_inv in H as [H|[[_ ->]|[[_ ->]|[evs ->]]]].
    + apply same_object_fields in H as (Hm & He & _ & Hh & Hi & Hit).
      rewrite Hm, He, Hh, Hi, Hit. repeat split. now left.
    + cbn. repeat split. now right.
    + cbn. repeat split. now left.
    + cbn. repeat split. now left.
Qed.

(** X7.  A feature pass that raises ends [MeanTeacher.train_step] with
    that exception: the extra keyword arguments after it are never
    passed, both brackets have been left, so the live parameters and the
    batch-norm flags are the pre-step ones and both controllers are
    released. *)
Theorem meanteacher_feature_pass_failure (cfg : MeanTeacher.Config) (b : MeanTeacher.Batch)
    (s : AlgState) (o_lb o_w o_w2 : ModelOutput)
    (pre post : Dict Tensor) (k : string) (x : Tensor) (e : Exn) :
  net (params (model s)) (bn_flags (model s)) (MeanTeacher.x_lb b) = Ok o_lb ->
  net (shadow (ema s)) (frozen (bn_flags (model s))) (MeanTeacher.x_ulb_w b) = Ok o_w ->
  net (params (model s)) (frozen (bn_flags (model s))) (MeanTeacher.x_ulb_w_2 b) = Ok o_w2 ->
  MeanTeacher.kwargs b = pre ++ (k, x) :: post ->
  (forall k' x', In (k', x') pre ->
     exists f, net_feat (params (model s)) (bn_flags (model s)) x' = Ok f) ->
  net_feat (params (model s)) (bn_flags (model s)) x = Raise e ->
  exists s',
    mt_train_step cfg b s = (Raise e, s') /\
    model s' = model s /\
    ema s' = mkEMA (shadow (ema s)) None /\
    bn_controller s' = mkBN None /\
    trace s' =
      trace s ++ MeanTeacher.passes_trace b s ++
      map (fun kx => EvForward (snd kx) (params (model s)) (bn_flags (model s)))
        (pre ++ [(k, x)]).
Proof.
  intros H1 H2 H3 Hk Hpre Hx.
  pose proof (feats_run_failure net_feat _ _ pre post k x e Hpre Hx
                (MeanTeacher.feat_dict0 o_lb o_w o_w2)) as HF.
  rewrite <- Hk in HF.
  assert (HB : mt_amp_block cfg b s =
               (Raise e,
                MeanTeacher.released s
                  (MeanTeacher.passes_trace b s ++
                   map (feat_event (params (model s)) (bn_flags (model s)))
                     (pre ++ [(k, x)])))).
  { unfold MeanTeacher.released, MeanTeacher.passes_trace, MeanTeacher.feat_dict0 in *.
    destruct s as [[p f] [sh bk] [bb] h idx i t]; mt_run.
    rewrite H1. mt_run. rewrite H2. mt_run. rewrite H3. mt_run.
    unfold bind at 1. rewrite extra_feats_exec. mt_run. rewrite HF. cbn [fst snd].
    repeat rewrite <- app_assoc. reflexivity. }
  eexists. split.
  - unfold MeanTeacher.train_step. rewrite (bind_Raise _ _ _ _ _ HB). reflexivity.
  - unfold MeanTeacher.released. cbn. repeat split.
Qed.

End MeanTeacherMore.

(** ** CLSS *)

Section CLSSMore.

Variable net : Params -> list bool -> Tensor -> Result ModelOutput.
Variable net_feat : Params -> list bool -> Tensor -> Result Tensor.
Variable reg_loss : Tensor -> Tensor -> string -> Result Q.
Variable ordinal_entropy : Tensor -> Tensor -> Result Q.
Variable ulb_rank : Tensor -> Q -> Result (Q * Tensor).
Variable ulb_rank_prdlb : Tensor -> Q -> Tensor -> Result Q.

Local Notation "'clss_train_step'" :=
  (CLSS.train_step net net_feat reg_loss ordinal_entropy ulb_rank ulb_rank_prdlb).

Ltac clss_run := try unfold CLSS.amp_block in *; run_base.

Ltac clss_next H :=
  match type of H with
  | (match ?c with Ok _ => _ | Raise _ => _ end) = _ =>
      let E := fresh "E" in destruct c eqn:E; clss_run
  | bind (bind _ _) _ _ = _ => rewrite bind_assoc in H; clss_run
  | bind (extra_feats _ _ _) _ _ = _ =>
      unfold bind at 1 in H; rewrite extra_feats_exec in H; clss_run
  end.

(** X8.  A completed [CLSS.train_step] made exactly these calls: the
    labeled pass, the weak unlabeled pass, then one feature pass per
    extra keyword argument in their order, all under the live parameters
    and flags.  In the feature mapping it returns (lines 63-65) every
    extra keyword argument maps to the feature-only pass of its input,
    and ["x_lb"] and ["x_ulb_w"], when no keyword argument carries their
    name, to the features of the two passes. *)
Theorem clss_completed_step (cfg : CLSS.Config) (b : CLSS.Batch)
    (s s' : AlgState) (out : OutDict) (log : Dict Q) :
  clss_train_step cfg b s = (Ok (out, log), s') ->
  NoDup (map fst (CLSS.kwargs b)) ->
  exists o_lb o_w,
    net (params (model s)) (bn_flags (model s)) (CLSS.x_lb b) = Ok o_lb /\
    net (params (model s)) (bn_flags (model s)) (CLSS.x_ulb_w b) = Ok o_w /\
    trace s' =
      trace s ++
      [EvForward (CLSS.x_lb b) (params (model s)) (bn_flags (model s));
       EvForward (CLSS.x_ulb_w b) (params (model s)) (bn_flags (model s))] ++
      map (fun kx => EvForward (snd kx) (params (model s)) (bn_flags (model s)))
        (CLSS.kwargs b) /\
    (forall k x, In (k, x) (CLSS.kwargs b) ->
       exists f,
         net_feat (params (model s)) (bn_flags (model s)) x = Ok f /\
         dict_get k (out_feat out) = Some f) /\
    (~ In "x_lb" (map fst (CLSS.kwargs b)) ->
       dict_get "x_lb" (out_feat out) = Some (feat o_lb)) /\
    (~ In "x_ulb_w" (map fst (CLSS.kwargs b)) ->
       dict_get "x_ulb_w" (out_feat out) = Some (feat o_w)).
Proof.
  intros H Hnd. unfold CLSS.train_step in H.
  apply bind_Ok_inv in H as (l & s1 & H & Hr).
  unfold ret in Hr. injection Hr as <- <- <-.
  destruct s as [[p f] [sh bk] [bb] h idx i t]; clss_run.
  repeat (clss_next H; try discriminate).
  unfold ret in H. injection H as <- <-.
  match goal with
  | E : fst (extra_feats_run _ _ _ _ _) = Ok _ |- _ =>
      destruct (feats_run_lookup _ _ _ _ Hnd _ _ E) as [Hin Hout];
      pose proof (feats_run_events _ _ _ _ _ _ E) as Hev
  end.
  eexists _, _. cbn [out_feat process_out_dict CLSS.feat_dict trace].
  split; [reflexivity|]. split; [reflexivity|]. split; [|split; [|split]].
  - rewrite Hev. repeat rewrite <- app_assoc. reflexivity.
  - exact Hin.
  - intros Hk. now rewrite (Hout _ Hk).
  - intros Hk. now rewrite (Hout _ Hk).
Qed.

End CLSSMore.

(** ** RankUp *)

Section RankUpMore.

Variable net_arc : option Tensor -> Params -> list bool -> Tensor -> Result ModelOutput.
Variable compute_prob : Tensor -> Tensor.
Variable reg_loss : Tensor -> Tensor -> string -> Result Q.
Variable reg_consistency_loss : Tensor -> Tensor -> string -> Result Q.
Variable cls_loss : Tensor -> Tensor -> string -> Result Q.
Variable cls_consistency_kernel : Tensor -> Tensor -> string -> Result (list Q).
Variable rda_gen_ulb_targets :
  RDAState -> Model -> list Z -> Tensor -> Result Tensor * RDAState.
Variable pl_gen_ulb_targets : Tensor -> bool -> Q -> bool -> Result Tensor.
Variable rda_init_statistic : list Q -> Q.

Local Notation "'ru_train_step'" :=
  (RankUp.train_step net_arc compute_prob reg_loss reg_consistency_loss cls_loss
     cls_consistency_kernel rda_gen_ulb_targets pl_gen_ulb_targets).
Local Notation "'ru_amp_block'" :=
  (RankUp.amp_block net_arc compute_prob reg_loss reg_consistency_loss cls_loss
     cls_consistency_kernel rda_gen_ulb_targets pl_gen_ulb_targets).

Ltac ru_run :=
  try unfold RankUp.amp_block, RankUp.call_hook in *; run_base;
  cbn [String.eqb Ascii.eqb Bool.eqb] in *.

Ltac ru_next H :=
  match type of H with
  | (match ?c with Ok _ => _ | Raise _ => _ end) = _ =>
      let E := fresh "E" in destruct c eqn:E
  | (match ?c with Some _ => _ | None => _ end) = _ =>
      let E := fresh "E" in destruct c eqn:E
  | (match ?c with
     | RDAHook _ => _ | PseudoLabelingHook => _
     | FixedThresholdingHook => _ | OtherHook => _ end) = _ =>
      destruct c
  | (let (_, _) := ?c in _) = _ =>
      let E := fresh "E" in destruct c eqn:E
  | bind (bind _ _) _ _ = _ => rewrite bind_assoc in H
  | bind (if ?c then _ else _) _ _ = _ =>
      let E := fresh "E" in destruct c eqn:E
  | bind (getitem _ ?c) _ _ = _ =>
      let E := fresh "E" in destruct c eqn:E
  | bind (match ?c with Some _ => _ | None => _ end) _ _ = _ =>
      let E := fresh "E" in destruct c eqn:E
  | bind (match ?c with
          | RDAHook _ => _ | PseudoLabelingHook => _
          | FixedThresholdingHook => _ | OtherHook => _ end) _ _ = _ =>
      destruct c
  | bind (let (_, _) := ?c in _) _ _ = _ =>
      let E := fresh "E" in destruct c eqn:E
  end; ru_run.

Lemma ru_train_step_amp (cfg : RankUp.Config) (b : RankUp.Batch) (s : AlgState) :
  snd (ru_train_step cfg b s) =
  snd (ru_amp_block cfg b (set_idx_ulb (RankUp.idx_ulb b) s)).
Proof.
  unfold RankUp.train_step, bind, modify, ret.
  now destruct (ru_amp_block cfg b (set_idx_ulb (RankUp.idx_ulb b) s)) as [[l|e] s1].
Qed.

(** X9.  What no outcome of [RankUp.train_step] changes: the EMA
    controller (the step never applies or restores the shadow), the live
    parameters and the iteration counter.  Every exit leaves the batch's
    [idx_ulb] stored on the algorithm (line 102), and the batch-norm
    flags either as they were or all frozen. *)
Theorem rankup_step_frame (cfg : RankUp.Config) (b : RankUp.Batch) (s : AlgState) :
  ema (snd (ru_train_step cfg b s)) = ema s /\
  params (model (snd (ru_train_step cfg b s))) = params (model s) /\
  it (snd (ru_train_step cfg b s)) = it s /\
  self_idx_ulb (snd (ru_train_step cfg b s)) = RankUp.idx_ulb b /\
  (bn_flags (model (snd (ru_train_step cfg b s))) = bn_flags (model s) \/
   bn_flags (model (snd (ru_train_step cfg b s))) = frozen (bn_flags (model s))).
Proof.
  rewrite ru_train_step_amp.
  destruct (ru_amp_block cfg b (set_idx_ulb (RankUp.idx_ulb b) s)) as [r s'] eqn:H.
  cbn [snd].
  destruct s as [[p f] [sh bk] [bb] h idx i t]; ru_run.
  repeat (ru_next H;
          try (unfold ret in H; injection H as <- <-; cbn; repeat split; tauto)).
Qed.

(** X10.  The calls of a completed [RankUp.train_step], in order: the
    labeled pass under the flags as found; the weak pass inside
    [freeze_bn; ...; unfreeze_bn], under frozen flags; the strong pass
    under the flags as found; then the hook calls -- the RDA hook first
    and only when [use_rda] is set, then masking, then pseudo-labeling.
    The live model and the batch-norm controller end as released. *)
Theorem rankup_completed_trace (cfg : RankUp.Config) (b : RankUp.Batch)
    (s s' : AlgState) (r : OutDict * Dict Q) :
  ru_train_step cfg b s = (Ok r, s') ->
  trace s' =
    trace s ++
    [EvForward (RankUp.x_lb b) (params (model s)) (bn_flags (model s));
     EvFreezeBN;
     EvForward (RankUp.x_ulb_w b) (params (model s)) (frozen (bn_flags (model s)));
     EvUnfreezeBN;
     EvForward (RankUp.x_ulb_s b) (params (model s)) (bn_flags (model s))] ++
    (if RankUp.use_rda cfg then [EvCallHook "gen_ulb_targets" "RDAHook"] else []) ++
    [EvCallHook "masking" "MaskingHook";
     EvCallHook "gen_ulb_targets" "PseudoLabelingHook"] /\
  model s' = model s /\
  bn_controller s' = mkBN None.
Proof.
  destruct r as [out log]. intros H.
  apply RankUp.ru_train_step_Ok_inv in H as (l & H & _).
  destruct s as [[p f] [sh bk] [bb] h idx i t]; ru_run.
  repeat (ru_next H; try discriminate).
  all: unfold ret in H; injection H as <- <-; cbn.
  all: repeat rewrite <- app_assoc; repeat split.
Qed.

(** X11.  With [use_rda] set, a completed [RankUp.train_step] called the
    RDA hook once, with the live model, the [idx_ulb] of this batch
    (stored by line 102) and the regression logits of the weak pass;
    [reg_unsup_loss] is the MSE consistency loss of those logits against
    the (detached) targets the hook returned, it enters [total_reg_loss]
    weighted by [reg_ulb_loss_ratio] and the ramp, and the registry
    afterwards holds the hook's new state under ["RDAHook"], everything
    else as before. *)
Theorem rankup_rda_path (cfg : RankUp.Config) (b : RankUp.Batch)
    (s s' : AlgState) (out : OutDict) (log : Dict Q) :
  RankUp.use_rda cfg = true ->
  ru_train_step cfg b s = (Ok (out, log), s') ->
  exists l o_w st st' tgt,
    ru_amp_block cfg b (set_idx_ulb (RankUp.idx_ulb b) s) = (Ok l, s') /\
    net_arc None (params (model s)) (frozen (bn_flags (model s))) (RankUp.x_ulb_w b)
      = Ok o_w /\
    dict_get "RDAHook" (hooks_dict s) = Some (RDAHook st) /\
    rda_gen_ulb_targets st (model s) (RankUp.idx_ulb b) (logits o_w) = (Ok tgt, st') /\
    reg_consistency_loss (logits o_w) (detach tgt) "mse" = Ok (RankUp.reg_unsup_loss l) /\
    RankUp.total_reg_loss l =
      (RankUp.reg_sup_loss l
       + RankUp.reg_ulb_loss_ratio cfg * RankUp.reg_unsup_loss l
         * RankUp.reg_unsup_warmup l)%Q /\
    dict_get "reg_loss" log = Some (RankUp.total_reg_loss l) /\
    hooks_dict s' = dict_set "RDAHook" (RDAHook st') (hooks_dict s).
Proof.
  intros Hrda H.
  apply RankUp.ru_train_step_Ok_inv in H as (l & H & -> & ->).
  exists l. pose proof H as H0.
  destruct s as [[p f] [sh bk] [bb] h idx i t]; ru_run.
  repeat (ru_next H; try discriminate; try congruence).
  unfold ret in H. injection H as <- <-. cbn.
  eexists _, _, _, _. repeat split; try eassumption; reflexivity.
Qed.

Lemma ru_train_step_of_block (cfg : RankUp.Config) (b : RankUp.Batch) (s : AlgState) :
  ru_train_step cfg b s =
  match ru_amp_block cfg b (set_idx_ulb (RankUp.idx_ulb b) s) with
  | (Ok l, s') =>
      (Ok (mkOutDict (RankUp.total_loss l) (RankUp.feat_dict l),
           [("reg_loss", RankUp.total_reg_loss l);
            ("cls_loss", RankUp.total_cls_loss l);
            ("total_loss", RankUp.total_loss l)]), s')
  | (Raise e, s') => (Raise e, s')
  end.
Proof.
  unfold RankUp.train_step, bind, modify, ret.
  now destruct (ru_amp_block cfg b (set_idx_ulb (RankUp.idx_ulb b) s)) as [[l|e] s1].
Qed.

(** X12.  [set_hooks] (lines 70-82) registers the RDA hook, the
    pseudo-labeling hook and the masking hook under ["RDAHook"],
    ["PseudoLabelingHook"] and ["MaskingHook"], replacing whatever the
    base class had registered under those names and leaving every other
    registered hook as it was. *)
Theorem rankup_set_hooks_registry (cfg : RankUp.Config) (n : nat) (lb : list Q)
    (base_hooks : Dict Hook) :
  dict_get "RDAHook" (RankUp.set_hooks rda_init_statistic cfg n lb base_hooks)
    = Some (RankUp.RDAHook_init rda_init_statistic n lb (RankUp.rda_num_refine_iter cfg)) /\
  dict_get "PseudoLabelingHook" (RankUp.set_hooks rda_init_statistic cfg n lb base_hooks)
    = Some PseudoLabelingHook /\
  dict_get "MaskingHook" (RankUp.set_hooks rda_init_statistic cfg n lb base_hooks)
    = Some FixedThresholdingHook /\
  (forall k,
     k <> "RDAHook" -> k <> "PseudoLabelingHook" -> k <> "MaskingHook" ->
     dict_get k (RankUp.set_hooks rda_init_statistic cfg n lb base_hooks)
     = dict_get k base_hooks).
Proof.
  unfold RankUp.set_hooks, register_hook. repeat split.
  - rewrite !dict_get_set_other by discriminate. apply dict_get_set_same.
  - rewrite dict_get_set_other by discriminate. apply dict_get_set_same.
  - apply dict_get_set_same.
  - intros k N1 N2 N3. now rewrite !dict_get_set_other by assumption.
Qed.

(** X13.  The hooks [train_step] calls by name are the ones [set_hooks]
    registers: on an algorithm whose registry is the result of
    [set_hooks], with [use_rda] on or off, [RankUp.train_step] returns as
    soon as the network, the loss kernels and the hook operations
    themselves do and the warm-up span is not zero, and its loss is
    [reg_sup + reg_ulb_loss_ratio * reg_unsup * ramp
     + cls_loss_ratio * (cls_sup + cls_ulb_loss_ratio * cls_unsup)]. *)
Theorem rankup_registered_step_returns (cfg : RankUp.Config) (b : RankUp.Batch)
    (s : AlgState) (n : nat) (lb : list Q) (base_hooks : Dict Hook)
    (o_lb o_w o_s : ModelOutput) (la_lb ya la_w la_s m pl : Tensor)
    (rsup ru csup cunsup : Q) :
  hooks_dict s = RankUp.set_hooks rda_init_statistic cfg n lb base_hooks ->
  net_arc (Some (RankUp.y_lb b)) (params (model s)) (bn_flags (model s)) (RankUp.x_lb b)
    = Ok o_lb ->
  logits_arc o_lb = Some la_lb -> targets_arc o_lb = Some ya ->
  net_arc None (params (model s)) (frozen (bn_flags (model s))) (RankUp.x_ulb_w b) = Ok o_w ->
  logits_arc o_w = Some la_w ->
  net_arc None (params (model s)) (bn_flags (model s)) (RankUp.x_ulb_s b) = Ok o_s ->
  logits_arc o_s = Some la_s ->
  reg_loss (logits o_lb) (RankUp.y_lb b) "mean" = Ok rsup ->
  (if RankUp.use_rda cfg
   then exists tgt st',
          rda_gen_ulb_targets
            (mkRDA (repeat (rda_init_statistic lb) n) lb (RankUp.rda_num_refine_iter cfg) 0)
            (model s) (RankUp.idx_ulb b) (logits o_w) = (Ok tgt, st') /\
          reg_consistency_loss (logits o_w) tgt "mse" = Ok ru
   else ru = 0) ->
  RankUp.masking compute_prob (RankUp.p_cutoff cfg) (compute_prob la_w) false = Ok m ->
  pl_gen_ulb_targets (compute_prob la_w) (RankUp.use_hard_label cfg) (RankUp.T cfg) false
    = Ok pl ->
  cls_loss la_lb ya "mean" = Ok csup ->
  RankUp.cls_consistency_loss cls_consistency_kernel la_s pl "ce" (Some m) = Ok cunsup ->
  ~ RankUp.reg_unsup_warm_up cfg * inject_Z (RankUp.num_train_iter cfg) == 0 ->
  exists out log s',
    ru_train_step cfg b s = (Ok (out, log), s') /\
    loss out =
      (rsup + RankUp.reg_ulb_loss_ratio cfg * ru *
              np_clip (inject_Z (it s) /
                       (RankUp.reg_unsup_warm_up cfg * inject_Z (RankUp.num_train_iter cfg)))
                0 1
       + RankUp.cls_loss_ratio cfg * (csup + RankUp.cls_ulb_loss_ratio cfg * cunsup))%Q.
Proof.
  intros Hh H1 H1a H1b H2 H2a H3 H3a H4 Hrda Hmk Hpl H5 H6 Hnz.
  destruct (RankUp.set_hooks_registers rda_init_statistic cfg n lb base_hooks)
    as (Gr & Gp & Gm).
  rewrite <- Hh in Gr, Gp, Gm. clear Hh.
  unfold RankUp.RDAHook_init in Gr.
  assert (HW : warmup_ramp (it s) (RankUp.reg_unsup_warm_up cfg) (RankUp.num_train_iter cfg) =
               Ok (np_clip (inject_Z (it s) /
                      (RankUp.reg_unsup_warm_up cfg
                       * inject_Z (RankUp.num_train_iter cfg))) 0 1)).
  { unfold warmup_ramp. now rewrite (py_truediv_nonzero _ _ Hnz). }
  rewrite ru_train_step_of_block.
  destruct (ru_amp_block cfg b (set_idx_ulb (RankUp.idx_ulb b) s)) as [r s'] eqn:H.
  destruct s as [[p f] [sh bk] [bb] h idx i t]; ru_run. unfold detach in *.
  destruct (RankUp.use_rda cfg) eqn:Eu.
  - destruct Hrda as (tgt & st' & Hg & Hc).
    repeat (ru_next H; rewrite ?dict_get_set_other in * by discriminate; try congruence).
    unfold ret in H. injection H as <- <-.
    eexists _, _, _. split; [reflexivity|]. cbn.
    repeat f_equal; congruence.
  - subst ru.
    repeat (ru_next H; rewrite ?dict_get_set_other in * by discriminate; try congruence).
    unfold ret in H. injection H as <- <-.
    eexists _, _, _. split; [reflexivity|]. cbn.
    repeat f_equal; congruence.
Qed.

(** X14.  An output of the RankUp network that lacks a key the step reads
    ends the step with [KeyError] on that key.  For the labeled pass
    (["logits_arc"], then ["targets_arc"], lines 109-110) this happens
    before batch-norm is frozen: the algorithm keeps its model and
    controllers, with the batch's [idx_ulb] stored.  For the strong pass
    (line 121) it happens after the bracket is left and before any hook
    is called: model as before, controller released, registry untouched. *)
Theorem rankup_missing_output_key (cfg : RankUp.Config) (b : RankUp.Batch) (s : AlgState) :
  (forall o_lb,
     net_arc (Some (RankUp.y_lb b)) (params (model s)) (bn_flags (model s)) (RankUp.x_lb b)
       = Ok o_lb ->
     (logits_arc o_lb = None ->
      ru_train_step cfg b s =
      (Raise (KeyError "logits_arc"),
       set_trace
         (trace s ++ [EvForward (RankUp.x_lb b) (params (model s)) (bn_flags (model s))])
         (set_idx_ulb (RankUp.idx_ulb b) s))) /\
     (forall la_lb,
        logits_arc o_lb = Some la_lb -> targets_arc o_lb = None ->
        ru_train_step cfg b s =
        (Raise (KeyError "targets_arc"),
         set_trace
           (trace s ++ [EvForward (RankUp.x_lb b) (params (model s)) (bn_flags (model s))])
           (set_idx_ulb (RankUp.idx_ulb b) s)))) /\
  (forall o_lb la_lb ya o_w la_w o_s,
     net_arc (Some (RankUp.y_lb b)) (params (model s)) (bn_flags (model s)) (RankUp.x_lb b)
       = Ok o_lb ->
     logits_arc o_lb = Some la_lb -> targets_arc o_lb = Some ya ->
     net_arc None (params (model s)) (frozen (bn_flags (model s))) (RankUp.x_ulb_w b)
       = Ok o_w ->
     logits_arc o_w = Some la_w ->
     net_arc None (params (model s)) (bn_flags (model s)) (RankUp.x_ulb_s b) = Ok o_s ->
     logits_arc o_s = None ->
     exists s',
       ru_train_step cfg b s = (Raise (KeyError "logits_arc"), s') /\
       model s' = model s /\
       bn_controller s' = mkBN None /\
       hooks_dict s' = hooks_dict s /\
       forallb (fun ev => match ev with EvCallHook _ _ => false | _ => true end)
         (skipn (List.length (trace s)) (trace s')) = true).
Proof.
  split.
  - intros o_lb H1. split.
    + intros Hn. rewrite ru_train_step_of_block.
      destruct (ru_amp_block cfg b (set_idx_ulb (RankUp.idx_ulb b) s)) as [r s'] eqn:H.
      destruct s as [[p f] [sh bk] [bb] h idx i t]; ru_run.
      repeat (ru_next H; try congruence).
      unfold raise in H. now injection H as <- <-.
    + intros la_lb Hl Hn. rewrite ru_train_step_of_block.
      destruct (ru_amp_block cfg b (set_idx_ulb (RankUp.idx_ulb b) s)) as [r s'] eqn:H.
      destruct s as [[p f] [sh bk] [bb] h idx i t]; ru_run.
      repeat (ru_next H; try congruence).
      unfold raise in H. now injection H as <- <-.
  - intros o_lb la_lb ya o_w la_w o_s H1 H1a H1b H2 H2a H3 Hn.
    rewrite ru_train_step_of_block.
    destruct (ru_amp_block cfg b (set_idx_ulb (RankUp.idx_ulb b) s)) as [r s'] eqn:H.
    destruct s as [[p f] [sh bk] [bb] h idx i t]; ru_run.
    repeat (ru_next H; try congruence).
    unfold raise in H. injection H as <- <-.
    eexists. split; [reflexivity|]. cbn [model bn_controller hooks_dict trace].
    repeat split.
    repeat rewrite <- app_assoc.
    rewrite skipn_app, skipn_all, Nat.sub_diag. reflexivity.
Qed.

(** X15.  The classification path of a completed [RankUp.train_step]:
    the mask and the pseudo-labels are both computed from the same
    probabilities, [compute_prob] of the (detached) auxiliary logits of
    the weak pass, handed to the hooks as already-softmaxed; the
    supervised term is [cls_loss] of the labeled auxiliary logits against
    the auxiliary targets the network returned; the unsupervised term is
    the consistency loss of the strong pass's auxiliary logits against
    those pseudo-labels, under that mask. *)
Theorem rankup_classification_path (cfg : RankUp.Config) (b : RankUp.Batch)
    (s s' : AlgState) (out : OutDict) (log : Dict Q) :
  ru_train_step cfg b s = (Ok (out, log), s') ->
  exists l o_lb o_w o_s la_lb ya la_w la_s pl,
    ru_amp_block cfg b (set_idx_ulb (RankUp.idx_ulb b) s) = (Ok l, s') /\
    net_arc (Some (RankUp.y_lb b)) (params (model s)) (bn_flags (model s)) (RankUp.x_lb b)
      = Ok o_lb /\
    logits_arc o_lb = Some la_lb /\ targets_arc o_lb = Some ya /\
    net_arc None (params (model s)) (frozen (bn_flags (model s))) (RankUp.x_ulb_w b)
      = Ok o_w /\
    logits_arc o_w = Some la_w /\
    net_arc None (params (model s)) (bn_flags (model s)) (RankUp.x_ulb_s b) = Ok o_s /\
    logits_arc o_s = Some la_s /\
    RankUp.masking compute_prob (RankUp.p_cutoff cfg) (compute_prob (detach la_w)) false
      = Ok (RankUp.mask l) /\
    pl_gen_ulb_targets (compute_prob (detach la_w))
      (RankUp.use_hard_label cfg) (RankUp.T cfg) false = Ok pl /\
    cls_loss la_lb ya "mean" = Ok (RankUp.cls_sup_loss l) /\
    RankUp.cls_consistency_loss cls_consistency_kernel la_s pl "ce" (Some (RankUp.mask l))
      = Ok (RankUp.cls_unsup_loss l) /\
    dict_get "cls_loss" log =
      Some (RankUp.cls_sup_loss l
            + RankUp.cls_ulb_loss_ratio cfg * RankUp.cls_unsup_loss l)%Q.
Proof.
  intros H.
  apply RankUp.ru_train_step_Ok_inv in H as (l & H & -> & ->).
  pose proof (RankUp.ru_amp_block_Ok_inv _ _ _ _ _ _ _ _ _ _ _ _ _ H) as
    (o_lb & o_w & o_s & la_lb & ya & la_w & la_s & pl & H1 & H1a & H1b & H2 & H2a &
     H3 & H3a & Hpr & _ & _ & Hmk & Hpl & Hcs & Hcu & _ & _ & HC & _).
  exists l, o_lb, o_w, o_s, la_lb, ya, la_w, la_s, pl.
  rewrite Hpr in Hmk, Hpl. unfold detach.
  destruct s as [[p f] e c h idx n t]. cbn in *.
  repeat split; try assumption. now rewrite HC.
Qed.

End RankUpMore.

(** ** The properties on concrete runs *)

Definition mt_kw_batch : MeanTeacher.Batch :=
  MeanTeacher.mkBatch (vec [1]) (vec [3]) (vec [2]) (vec [4])
    [("a", vec [7]); ("bad", vec [13]); ("c", vec [5])].

Definition clss_kw_batch : CLSS.Batch :=
  CLSS.mkBatch (vec [1]) (vec [3]) (vec [2]) [("x_extra", vec [7])].

(** At iteration 0 the loss is the supervised loss, 1; from iteration 40
    of 100 (fraction 2/5) it is 1 + 1 * 4. *)
Lemma meanteacher_loss_at_ramp_ends_witness :
  (exists out log s',
     MeanTeacher.train_step toy_net toy_net_feat toy_loss toy_loss mt_cfg mt_batch
       (toy_state 0 []) = (Ok (out, log), s') /\ loss out == 1) /\
  (exists out log s',
     MeanTeacher.train_step toy_net toy_net_feat toy_loss toy_loss mt_cfg mt_batch
       (toy_state 40 []) = (Ok (out, log), s') /\ loss out == 5).
Proof.
  split.
  - edestruct (meanteacher_loss_at_ramp_ends toy_net toy_net_feat toy_loss toy_loss
                 mt_cfg mt_batch (toy_state 0 []))
      as (out & log & s' & H & H0 & _);
      [reflexivity | reflexivity | reflexivity | reflexivity | reflexivity | reflexivity
       | reflexivity | reflexivity |].
    exists out, log, s'. split; [exact H|]. rewrite (H0 eq_refl). reflexivity.
  - edestruct (meanteacher_loss_at_ramp_ends toy_net toy_net_feat toy_loss toy_loss
                 mt_cfg mt_batch (toy_state 40 []))
      as (out & log & s' & H & _ & H1);
      [reflexivity | reflexivity | reflexivity | reflexivity | reflexivity | reflexivity
       | reflexivity | reflexivity |].
    exists out, log, s'. split; [exact H|]. rewrite H1; [reflexivity | discriminate].
Defined.

Lemma meanteacher_completed_trace_witness :
  exists r s',
    MeanTeacher.train_step toy_net toy_net_feat toy_loss toy_loss mt_cfg mt_batch
      (toy_state 20 []) = (Ok r, s') /\
    List.length (trace s') = 10%nat.
Proof.
  eexists _, _. split; [vm_compute; reflexivity|].
  erewrite (meanteacher_completed_trace toy_net toy_net_feat toy_loss toy_loss
              mt_cfg mt_batch (toy_state 20 [])) by (vm_compute; reflexivity).
  reflexivity.
Defined.

Lemma meanteacher_feat_dict_witness :
  exists out log s',
    MeanTeacher.train_step toy_net toy_net_feat toy_loss toy_loss mt_cfg mt_batch
      (toy_state 20 []) = (Ok (out, log), s') /\
    dict_get "x_extra" (out_feat out) = Some (vec [7]) /\
    dict_get "x_ulb_w" (out_feat out) = Some (vec [2]).
Proof.
  eexists _, _, _. split; [vm_compute; reflexivity|].
  edestruct (meanteacher_feat_dict toy_net toy_net_feat toy_loss toy_loss
               mt_cfg mt_batch (toy_state 20 []))
    as (o_lb & o_w & o_w2 & _ & _ & _ & Hin & _);
    [vm_compute; reflexivity | repeat constructor; intros [] |].
  destruct (Hin "x_extra" (vec [7]) (or_introl eq_refl)) as (f & Hf & Hd).
  split; [|reflexivity].
  rewrite Hd. vm_compute in Hf. now injection Hf as <-.
Defined.

(** The second of three extra arguments makes its feature pass raise:
    the third is never passed, and the model is as before the step. *)
Lemma meanteacher_feature_pass_failure_witness :
  exists s',
    MeanTeacher.train_step toy_net toy_net_feat toy_loss toy_loss mt_cfg mt_kw_batch
      (toy_state 20 []) = (Raise (External "forward"), s') /\
    model s' = model (toy_state 20 []) /\
    List.length (trace s') = 11%nat.
Proof.
  edestruct (meanteacher_feature_pass_failure toy_net toy_net_feat toy_loss toy_loss
               mt_cfg mt_kw_batch (toy_state 20 [])
               (mkOut (vec [2]) (vec [1]) None None)
               (mkOut (vec [6]) (vec [2]) None None)
               (mkOut (vec [8]) (vec [4]) None None)
               [("a", vec [7])] [("c", vec [5])] "bad" (vec [13]) (External "forward"))
    as (s' & H & Hm & _ & _ & Ht);
    [reflexivity | reflexivity | reflexivity | reflexivity | | reflexivity |].
  - intros k' x' [Heq|[]]. injection Heq as <- <-. eexists. reflexivity.
  - exists s'. split; [exact H|]. split; [exact Hm|]. rewrite Ht. reflexivity.
Defined.

Lemma clss_completed_step_witness :
  exists out log s',
    CLSS.train_step toy_net toy_net_feat toy_loss
      toy_ordinal_entropy toy_ulb_rank toy_ulb_rank_prdlb clss_cfg clss_kw_batch
      (toy_state 20 []) = (Ok (out, log), s') /\
    dict_get "x_lb" (out_feat out) = Some (vec [1]) /\
    List.length (trace s') = 3%nat.
Proof.
  eexists _, _, _. split; [vm_compute; reflexivity|].
  edestruct (clss_completed_step toy_net toy_net_feat toy_loss
               toy_ordinal_entropy toy_ulb_rank toy_ulb_rank_prdlb clss_cfg clss_kw_batch
               (toy_state 20 []))
    as (o_lb & o_w & H1 & _ & Ht & _ & Hx & _);
    [vm_compute; reflexivity | repeat constructor; intros [] |].
  split.
  - rewrite Hx.
    + vm_compute in H1. now injection H1 as <-.
    + intros [E|[]]. discriminate.
  - reflexivity.
Defined.

Lemma rankup_completed_trace_witness :
  exists r s',
    RankUp.train_step toy_net_arc toy_compute_prob toy_loss toy_loss toy_loss toy_kernel
      toy_rda toy_pl (ru_cfg true (2 # 5) (7 # 10)) ru_batch
      (toy_state 20 (ru_hooks (ru_cfg true (2 # 5) (7 # 10)))) = (Ok r, s') /\
    List.length (trace s') = 8%nat /\
    model s' = model (toy_state 20 []).
Proof.
  eexists _, _. split; [vm_compute; reflexivity|].
  edestruct (rankup_completed_trace toy_net_arc toy_compute_prob toy_loss toy_loss toy_loss
               toy_kernel toy_rda toy_pl (ru_cfg true (2 # 5) (7 # 10)) ru_batch
               (toy_state 20 (ru_hooks (ru_cfg true (2 # 5) (7 # 10)))))
    as (Ht & Hm & _); [vm_compute; reflexivity|].
  split; [reflexivity | reflexivity].
Defined.

Lemma rankup_rda_path_witness :
  exists out log s',
    RankUp.train_step toy_net_arc toy_compute_prob toy_loss toy_loss toy_loss toy_kernel
      toy_rda toy_pl (ru_cfg true (2 # 5) (7 # 10)) ru_batch
      (toy_state 20 (ru_hooks (ru_cfg true (2 # 5) (7 # 10)))) = (Ok (out, log), s') /\
    exists st, dict_get "RDAHook" (hooks_dict s') = Some (RDAHook st) /\ rda_calls st = 1%Z.
Proof.
  eexists _, _, _. split; [vm_compute; reflexivity|].
  edestruct (rankup_rda_path toy_net_arc toy_compute_prob toy_loss toy_loss toy_loss
               toy_kernel toy_rda toy_pl (ru_cfg true (2 # 5) (7 # 10)) ru_batch
               (toy_state 20 (ru_hooks (ru_cfg true (2 # 5) (7 # 10)))))
    as (l & o_w & st & st' & tgt & _ & _ & _ & _ & _ & _ & _ & Hh);
    [reflexivity | vm_compute; reflexivity |].
  eexists. split; reflexivity.
Defined.

Lemma rankup_registered_step_returns_witness :
  exists out log s',
    RankUp.train_step toy_net_arc toy_compute_prob toy_loss toy_loss toy_loss toy_kernel
      toy_rda toy_pl (ru_cfg true (2 # 5) (7 # 10)) ru_batch
      (toy_state 20 (ru_hooks (ru_cfg true (2 # 5) (7 # 10)))) = (Ok (out, log), s').
Proof.
  edestruct (rankup_registered_step_returns toy_net_arc toy_compute_prob toy_loss toy_loss
               toy_loss toy_kernel toy_rda toy_pl toy_statistic
               (ru_cfg true (2 # 5) (7 # 10)) ru_batch
               (toy_state 20 (ru_hooks (ru_cfg true (2 # 5) (7 # 10))))
               4 [1; 2] [("ParamUpdateHook", OtherHook)])
    as (out & log & s' & H & _);
    [reflexivity | reflexivity | reflexivity | reflexivity | reflexivity | reflexivity
     | reflexivity | reflexivity | reflexivity
     | eexists _, _; split; reflexivity
     | reflexivity | reflexivity | reflexivity | reflexivity
     | vm_compute; discriminate |].
  exists out, log, s'. exact H.
Defined.

Lemma rankup_classification_path_witness :
  exists out log s',
    RankUp.train_step toy_net_arc toy_compute_prob toy_loss toy_loss toy_loss toy_kernel
      toy_rda toy_pl (ru_cfg false (2 # 5) (7 # 10)) ru_batch
      (toy_state 20 (ru_hooks (ru_cfg false (2 # 5) (7 # 10)))) = (Ok (out, log), s') /\
    exists l,
      data (RankUp.mask l) = [1; 0; 1; 0] /\
      dict_get "cls_loss" log =
        Some (RankUp.cls_sup_loss l + 1 * RankUp.cls_unsup_loss l)%Q.
Proof.
  eexists _, _, _. split; [vm_compute; reflexivity|].
  edestruct (rankup_classification_path toy_net_arc toy_compute_prob toy_loss toy_loss
               toy_loss toy_kernel toy_rda toy_pl (ru_cfg false (2 # 5) (7 # 10)) ru_batch
               (toy_state 20 (ru_hooks (ru_cfg false (2 # 5) (7 # 10)))))
    as (l & o_lb & o_w & o_s & la_lb & ya & la_w & la_s & pl & Hb & _ & _ & _ & _ & _ &
        _ & _ & _ & _ & _ & _ & Hlog);
    [vm_compute; reflexivity|].
  exists l. split; [|exact Hlog].
  vm_compute in Hb. injection Hb as <-. reflexivity.
Defined.

(** A network whose outputs carry no auxiliary head: the step fails on
    the first lookup of ["logits_arc"], before anything is frozen. *)
Lemma rankup_missing_output_key_witness :
  exists s',
    RankUp.train_step (fun _ => toy_net) toy_compute_prob toy_loss toy_loss toy_loss
      toy_kernel toy_rda toy_pl (ru_cfg false (2 # 5) (7 # 10)) ru_batch
      (toy_state 20 (ru_hooks (ru_cfg false (2 # 5) (7 # 10))))
    = (Raise (KeyError "logits_arc"), s') /\
    model s' = model (toy_state 20 []) /\
    self_idx_ulb s' = [0; 1; 2; 3]%Z.
Proof.
  destruct (rankup_missing_output_key (fun _ => toy_net) toy_compute_prob toy_loss toy_loss
              toy_loss toy_kernel toy_rda toy_pl (ru_cfg false (2 # 5) (7 # 10)) ru_batch
              (toy_state 20 (ru_hooks (ru_cfg false (2 # 5) (7 # 10))))) as [H _].
  destruct (H _ eq_refl) as [H1 _].
  eexists. split; [exact (H1 eq_refl)|]. split; reflexivity.
Defined.

End Coverage.
